(** * interfaz_wav.py: the WAV viewer, embedded and checked against its spec

    The program loads one 16-bit PCM file with the [wave] module, normalises
    the samples with numpy, derives a time axis with [numpy.linspace], draws
    the curve with matplotlib and wires two Tk buttons (save the figure, play
    the file with [winsound]).

    Samples are [Z] with the int16 wrap-around written out, bytes are
    [Byte.byte], float64 values are Rocq's primitive binary64 floats (the
    arithmetic numpy performs, bit for bit), the filesystem is a [gmap] from
    paths to files.  Calls into the collaborating libraries (print, Axes.plot,
    Figure.savefig, winsound.PlaySound) are recorded in a trace.
    [Figure.savefig] picks its format and file name as [print_figure] does and
    raises on a format no canvas writes; what the OS or a backend refuses to
    write, like what the OS sound API refuses to play, is the world's.  Of the
    module-level preamble (the pip bootstrap and the imports) one effect
    lasts: [winsound] is bound on Windows only. *)

From Stdlib Require Import ZArith List Floats Lia.
From Stdlib.Strings Require Import Ascii Byte.
From stdpp Require Import base option list gmap strings.

Local Open Scope string_scope.
Local Open Scope Z_scope.

(** ** Python exceptions *)

Inductive exn :=
| FileNotFoundError (msg : string)
| OSError (msg : string)            (* PermissionError, IsADirectoryError, ... *)
| WaveError (msg : string)          (* wave.Error *)
| EOFError (msg : string)
| ValueError (msg : string)
| ZeroDivisionError (msg : string)
| NameError (msg : string)
| RuntimeError (msg : string)
| KeyboardInterrupt.                (* a BaseException that is no Exception *)

(** [isinstance(e, Exception)], what [except Exception] tests. *)
Definition is_Exception (e : exn) : bool :=
  match e with
  | KeyboardInterrupt => false
  | _ => true
  end.

(** [str(e)], what the f-strings of the handlers interpolate. *)
Definition py_str (e : exn) : string :=
  match e with
  | FileNotFoundError m | OSError m | WaveError m | EOFError m | ValueError m
  | ZeroDivisionError m | NameError m | RuntimeError m => m
  | KeyboardInterrupt => ""
  end.

Inductive outcome (A : Type) :=
| Returns (a : A)
| Raises (e : exn).
Arguments Returns {A} a.
Arguments Raises {A} e.

(** ** numpy *)

Module Np.

(** Python int to float64: round to nearest, ties to even (exact below 2^53). *)
Definition Z2f (z : Z) : float := SF2Prim (binary_normalize prec emax z 0 false).

(** Python's [a / b] on ints.  The operands met here (an array length and a
    32-bit frame rate) are below 2^53, where the quotient of the converted
    operands is the correctly rounded quotient Python returns. *)
Definition py_truediv (a b : Z) : outcome float :=
  if b =? 0 then Raises (ZeroDivisionError "division by zero")
  else Returns (Z2f a / Z2f b)%float.

Definition int16_min : Z := -32768.
Definition int16_max : Z := 32767.

Definition is_int16 (z : Z) : Prop := int16_min <= z <= int16_max.

(** Two's complement wrap-around into int16. *)
Definition wrap16 (z : Z) : Z := (z + 32768) mod 65536 - 32768.

Inductive ndarray :=
| Int16Array (a : list Z)
| Float64Array (a : list float).

Definition len (a : ndarray) : nat :=
  match a with
  | Int16Array l => length l
  | Float64Array l => length l
  end.

Definition byte_val (b : byte) : Z := Z.of_N (Byte.to_N b).

(** One little-endian int16 from its two bytes. *)
Definition int16_of_le (lo hi : byte) : Z :=
  wrap16 (byte_val lo + 256 * byte_val hi).

Fixpoint decode_le16 (buf : list byte) : list Z :=
  match buf with
  | lo :: hi :: rest => int16_of_le lo hi :: decode_le16 rest
  | _ => []
  end.

(** [np.frombuffer(buf, dtype=np.int16)] on a little-endian host. *)
Definition frombuffer_int16 (buf : list byte) : outcome (list Z) :=
  if Nat.even (length buf) then Returns (decode_le16 buf)
  else Raises (ValueError "buffer size must be a multiple of element size").

(** [np.abs] on an int16 array: the result stays int16, so -32768 maps to
    itself. *)
Definition abs_int16 (a : list Z) : list Z := map (fun x => wrap16 (Z.abs x)) a.

(** [np.max] *)
Definition max_int16 (a : list Z) : outcome Z :=
  match a with
  | [] => Raises (ValueError
            "zero-size array to reduction operation maximum which has no identity")
  | x :: l => Returns (fold_left Z.max l x)
  end.

(** [a / m] for an int16 array and an int16 scalar: numpy's true_divide
    converts both to float64 and divides; a zero divisor gives inf or nan
    and a warning, no exception. *)
Definition true_divide (a : list Z) (m : Z) : list float :=
  map (fun x => Z2f x / Z2f m)%float a.

(** [y[-1] = v] *)
Definition set_last (y : list float) (v : float) : list float :=
  <[pred (length y) := v]> y.

(** [np.linspace(start, stop, num=num)], with the default [endpoint=True],
    after numpy/_core/function_base.py. *)
Definition linspace (start stop : float) (num : nat) : list float :=
  let div := Z.of_nat num - 1 in
  let delta := (stop - start)%float in
  let y := map (fun i => Z2f (Z.of_nat i)) (seq 0 num) in
  let y :=
    if 0 <? div then
      let step := (delta / Z2f div)%float in
      if (step =? 0)%float
      then map (fun v => v / Z2f div * delta)%float y
      else map (fun v => v * step)%float y
    else map (fun v => v * delta)%float y in
  let y := map (fun v => v + start)%float y in
  if (1 <? num)%nat then set_last y stop else y.

End Np.

(** ** matplotlib *)

Module Mpl.

Record line2d := Line2D {
  xdata : list float;
  ydata : list float;
  color : string
}.

Record figure := Figure {
  figsize : Z * Z;
  lines : list line2d;
  xlabel : string;
  ylabel : string;
  title : string;
  grid_on : bool
}.

(** [plt.subplots(figsize=size)]: one empty Axes, default rcParams (no grid). *)
Definition subplots (size : Z * Z) : figure :=
  Figure size [] "" "" "" false.

(** What Axes.plot draws from an array: its values as float64. *)
Definition as_float64 (a : Np.ndarray) : list float :=
  match a with
  | Np.Int16Array l => map Np.Z2f l
  | Np.Float64Array l => l
  end.

Definition add_line (l : line2d) (f : figure) : figure :=
  Figure (figsize f) (lines f ++ [l]) (xlabel f) (ylabel f) (title f) (grid_on f).
Definition set_xlabel (s : string) (f : figure) : figure :=
  Figure (figsize f) (lines f) s (ylabel f) (title f) (grid_on f).
Definition set_ylabel (s : string) (f : figure) : figure :=
  Figure (figsize f) (lines f) (xlabel f) s (title f) (grid_on f).
Definition set_title (s : string) (f : figure) : figure :=
  Figure (figsize f) (lines f) (xlabel f) (ylabel f) s (grid_on f).
(** [ax.grid()] without arguments toggles the grid lines. *)
Definition grid (f : figure) : figure :=
  Figure (figsize f) (lines f) (xlabel f) (ylabel f) (title f) (negb (grid_on f)).

(** [FigureCanvasBase.get_supported_filetypes()], sorted (matplotlib 3.6 and
    later). *)
Definition supported_filetypes : list string :=
  ["eps"; "jpeg"; "jpg"; "pdf"; "pgf"; "png"; "ps"; "raw"; "rgba"; "svg"; "svgz";
   "tif"; "tiff"; "webp"].

Definition is_supported (format : string) : bool :=
  existsb (String.eqb format) supported_filetypes.

(** The message of the ValueError for another format; [repr] writes the
    format between single quotes (and escapes a quote, a backslash or a
    character that does not print, which is left out here). *)
Definition format_not_supported (format : string) : string :=
  "Format '" +:+ format +:+ "' is not supported (supported formats: "
  +:+ "eps, jpeg, jpg, pdf, pgf, png, ps, raw, rgba, svg, svgz, tif, tiff, webp)".

End Mpl.

(** ** wave and the filesystem *)

Module Wave.

(** A parsed RIFF/WAVE file: the fmt chunk's fields and the data chunk. *)
Record wav := Wav {
  nchannels : Z;
  sampwidth : Z;                  (* bytes per sample *)
  framerate : Z;
  data : list byte
}.

Definition getframerate (w : wav) : Z := framerate w.

(** [readframes(n)]: a negative [n] reads up to the end of the data chunk. *)
Definition readframes (w : wav) (n : Z) : list byte :=
  if n =? 0 then []
  else if n <? 0 then data w
  else take (Z.to_nat (n * (nchannels w * sampwidth w))) (data w).

(** What [wave.open] says of a figure saved in [format]: of the formats
    savefig writes, WebP alone is a RIFF container. *)
Definition not_wave (format : string) : string :=
  if String.eqb format "webp" then "not a WAVE file"
  else "file does not start with RIFF id".

End Wave.

Inductive file :=
| WavFile (w : Wave.wav)
| NotWav (why : string)             (* wave.Error: no RIFF id, not PCM, ... *)
| Truncated                         (* EOFError while reading the header *)
| Image (format : string) (f : Mpl.figure).   (* a figure as savefig writes it *)

Inductive platform := Windows | Linux | Darwin.

(** ** os.path and str *)

Module OsPath.

Definition is_extsep (c : Ascii.ascii) : bool := Ascii.eqb c "."%char.

(** [os.sep] or [os.altsep]: ntpath has the backslash and the slash,
    posixpath the slash. *)
Definition is_sep (system : platform) (c : Ascii.ascii) : bool :=
  match system with
  | Windows => Ascii.eqb c "\"%char || Ascii.eqb c "/"%char
  | _ => Ascii.eqb c "/"%char
  end.

Fixpoint rfind_from (p : Ascii.ascii -> bool) (s : string) (i found : Z) : Z :=
  match s with
  | EmptyString => found
  | String c rest => rfind_from p rest (i + 1) (if p c then i else found)
  end.

(** [s.rfind(c)] for the characters [c] that satisfy [p]: the last index,
    or -1. *)
Definition rfind (p : Ascii.ascii -> bool) (s : string) : Z := rfind_from p s 0 (-1).

(** [s[a:b]] for [0 <= a]. *)
Definition slice (s : string) (a b : Z) : string :=
  String.substring (Z.to_nat a) (Z.to_nat (b - a)) s.

Fixpoint all_chars (p : Ascii.ascii -> bool) (s : string) : bool :=
  match s with
  | EmptyString => true
  | String c rest => p c && all_chars p rest
  end.

(** [os.path.splitext], after genericpath._splitext: the extension starts at
    the last dot of the last component, unless that component has leading
    dots only before it. *)
Definition splitext (system : platform) (p : string) : string * string :=
  let sepIndex := rfind (is_sep system) p in
  let dotIndex := rfind is_extsep p in
  if sepIndex <? dotIndex then
    if all_chars is_extsep (slice p (sepIndex + 1) dotIndex) then (p, "")
    else (slice p 0 dotIndex, slice p dotIndex (Z.of_nat (String.length p)))
  else (p, "").

(** [s[1:]] *)
Definition tail (s : string) : string :=
  match s with
  | EmptyString => ""
  | String _ rest => rest
  end.

(** [s.rstrip('.')] *)
Fixpoint rstrip_dots (s : string) : string :=
  match s with
  | EmptyString => ""
  | String c rest =>
      match rstrip_dots rest with
      | EmptyString => if is_extsep c then "" else String c ""
      | kept => String c kept
      end
  end.

Definition lower_char (c : Ascii.ascii) : Ascii.ascii :=
  let n := Ascii.N_of_ascii c in
  if ((65 <=? n) && (n <=? 90))%N then Ascii.ascii_of_N (n + 32) else c.

(** [s.lower()], on the letters A to Z; a letter outside ASCII, which no
    supported format has, is left as it is. *)
Fixpoint lower (s : string) : string :=
  match s with
  | EmptyString => ""
  | String c rest => String (lower_char c) (lower rest)
  end.

End OsPath.

(** ** The world outside the process *)

(** Calls into the collaborating libraries, in the order they happen. *)
Inductive event :=
| Print (line : string)
| AxPlot (x : option (list float)) (y : option Np.ndarray) (color : string)
| Savefig (path : string)
| PlaySound (sound : string) (flags : Z).

Record World := mkWorld {
  fs : gmap string file;
  os : platform;                    (* platform.system() *)
  playable : string -> bool;        (* can the OS sound API play this file *)
  write_error : string -> string -> option exn;
                                    (* what writing a figure in a format at a
                                       path raises: the OS on a missing
                                       directory or a path it protects, the
                                       backend; None where the write succeeds *)
  trace : list event                (* oldest first *)
}.

(** ** The application object *)

Inductive command := GuardarImagenCompleta | ReproducirAudio.

Inductive widget :=
| Canvas                            (* FigureCanvasTkAgg(self.fig) *)
| Button (text : string) (cmd : command).

Record AudioApp := mkApp {
  widgets : list widget;            (* children of self.root, in pack order *)
  wav_file_name : string;
  audio_data : option Np.ndarray;
  sampling_rate : option Z;
  time : option (list float);
  fig : Mpl.figure                  (* self.fig with its single Axes self.ax *)
}.

Record state := State { world : World; self : AudioApp }.

(** Python code that reads and writes the world and [self] and either returns
    a value or raises; what was written before a raise stays written. *)
Definition py (A : Type) : Type := state -> state * outcome A.

Definition ret {A} (a : A) : py A := fun s => (s, Returns a).
Definition raise {A} (e : exn) : py A := fun s => (s, Raises e).
Definition bind {A B} (m : py A) (k : A -> py B) : py B :=
  fun s => match m s with
           | (s', Returns a) => k a s'
           | (s', Raises e) => (s', Raises e)
           end.
Definition lift {A} (o : outcome A) : py A := fun s => (s, o).

#[global] Instance py_ret : MRet py := @ret.
#[global] Instance py_bind : MBind py := fun A B k m => bind m k.

(** [try: body / except Exception as e: handler e] *)
Definition try_except {A} (body : py A) (handler : exn -> py A) : py A :=
  fun s => match body s with
           | (s', Raises e) => if is_Exception e then handler e s' else (s', Raises e)
           | r => r
           end.

Definition get {A} (field : AudioApp -> A) : py A :=
  fun s => (s, Returns (field (self s))).
Definition modify_self (f : AudioApp -> AudioApp) : py unit :=
  fun s => (State (world s) (f (self s)), Returns tt).
Definition ask {A} (field : World -> A) : py A :=
  fun s => (s, Returns (field (world s))).
Definition write_file (path : string) (f : file) : py unit :=
  fun s => let w := world s in
           (State (mkWorld (<[path := f]> (fs w)) (os w) (playable w) (write_error w) (trace w))
                  (self s),
            Returns tt).
Definition emit (e : event) : py unit :=
  fun s => let w := world s in
           (State (mkWorld (fs w) (os w) (playable w) (write_error w) (trace w ++ [e])) (self s),
            Returns tt).

Definition set_widgets (v : list widget) (a : AudioApp) : AudioApp :=
  mkApp v (wav_file_name a) (audio_data a) (sampling_rate a) (time a) (fig a).
Definition set_audio_data (v : Np.ndarray) (a : AudioApp) : AudioApp :=
  mkApp (widgets a) (wav_file_name a) (Some v) (sampling_rate a) (time a) (fig a).
Definition set_sampling_rate (v : Z) (a : AudioApp) : AudioApp :=
  mkApp (widgets a) (wav_file_name a) (audio_data a) (Some v) (time a) (fig a).
Definition set_time (v : list float) (a : AudioApp) : AudioApp :=
  mkApp (widgets a) (wav_file_name a) (audio_data a) (sampling_rate a) (Some v) (fig a).
Definition on_fig (f : Mpl.figure -> Mpl.figure) (a : AudioApp) : AudioApp :=
  mkApp (widgets a) (wav_file_name a) (audio_data a) (sampling_rate a) (time a)
        (f (fig a)).

Definition print (line : string) : py unit := emit (Print line).

(** [wave.open(path, "rb")]: the builtin open, then the header parse. *)
Definition wave_open (path : string) : py Wave.wav :=
  fun s =>
    match fs (world s) !! path with
    | None =>
        raise (FileNotFoundError
                 ("[Errno 2] No such file or directory: '" +:+ path +:+ "'")) s
    | Some (WavFile w) => ret w s
    | Some (NotWav why) => raise (WaveError why) s
    | Some Truncated => raise (EOFError "") s
    | Some (Image format _) => raise (WaveError (Wave.not_wave format)) s
    end.

(** The body of the [try] in [load_audio] (lines 73-87).  The attributes
    assigned on one line are read back on the next through the values just
    stored. *)
Definition load_audio_try : py unit :=
  name ← get wav_file_name;
  wave_file ← wave_open name;
  let rate := Wave.getframerate wave_file in
  modify_self (set_sampling_rate rate);;
  raw ← lift (Np.frombuffer_int16 (Wave.readframes wave_file (-1)));
  modify_self (set_audio_data (Np.Int16Array raw));;
  peak ← lift (Np.max_int16 (Np.abs_int16 raw));
  let normalized := Np.true_divide raw peak in
  modify_self (set_audio_data (Np.Float64Array normalized));;
  duration ← lift (Np.py_truediv (Z.of_nat (length normalized)) rate);
  modify_self (set_time (Np.linspace 0 duration (length normalized))).

Definition load_audio : py unit :=
  try_except load_audio_try
    (fun e => print ("Error loading audio: " +:+ py_str e)).

(** [self.ax.plot(x, y, color=c)]; the message about the first dimension goes
    on with the two shapes. *)
Definition ax_plot (x : option (list float)) (y : option Np.ndarray) (c : string)
  : py unit :=
  emit (AxPlot x y c);;
  match x, y with
  | Some xs, Some ys =>
      if (length xs =? Np.len ys)%nat
      then modify_self (on_fig (Mpl.add_line (Mpl.Line2D xs (Mpl.as_float64 ys) c)))
      else raise (ValueError "x and y must have same first dimension")
  | _, _ => raise (ValueError "x, y, and format string must not be None")
  end.

Definition plot_audio : py unit :=
  t ← get time;
  d ← get audio_data;
  ax_plot t d "b";;
  modify_self (on_fig (Mpl.set_xlabel "Tiempo [s]"));;
  modify_self (on_fig (Mpl.set_ylabel "Amplitud"));;
  modify_self (on_fig (Mpl.set_title "Onda Sonora"));;
  modify_self (on_fig Mpl.grid).

Definition create_widgets : py unit :=
  modify_self (set_widgets
    [Canvas;
     Button "Guardar Imagen Completa" GuardarImagenCompleta;
     Button "Reproducir Audio" ReproducirAudio]).

(** Python truth value of a str. *)
Definition truthy (s : string) : bool :=
  match s with
  | EmptyString => false
  | _ => true
  end.

(** [print_figure]'s choice of a format for [fname] (no format given): the
    extension of the name in lower case, or png for a name without one. *)
Definition savefig_format (system : platform) (fname : string) : string :=
  let ext := OsPath.tail (snd (OsPath.splitext system fname)) in
  if truthy ext then OsPath.lower ext else "png".

(** The file it writes: [fname], or for a name without extension the name
    with ".png" in place of its trailing dots. *)
Definition savefig_filename (system : platform) (fname : string) : string :=
  let ext := OsPath.tail (snd (OsPath.splitext system fname)) in
  if truthy ext then fname else OsPath.rstrip_dots fname +:+ ".png".

(** [self.fig.savefig(fname)]: a format no canvas writes is a ValueError
    before any file is opened; then the figure as it is now is written, unless
    the OS or the backend refuses. *)
Definition savefig (fname : string) : py unit :=
  emit (Savefig fname);;
  system ← ask os;
  let format := savefig_format system fname in
  let filename := savefig_filename system fname in
  if Mpl.is_supported format then
    refusal ← ask (fun w => write_error w format filename);
    match refusal with
    | Some e => raise e
    | None => f ← get fig; write_file filename (Image format f)
    end
  else raise (ValueError (Mpl.format_not_supported format)).

(** [archivo_guardado] is what [filedialog.asksaveasfilename] returned: the
    chosen path, or the empty string when the dialog was cancelled. *)
Definition guardar_imagen_completa (archivo_guardado : string) : py unit :=
  if truthy archivo_guardado then
    savefig archivo_guardado;;
    print ("Imagen guardada: " +:+ archivo_guardado)
  else ret tt.

Definition SND_FILENAME : Z := 131072.

(** [winsound.PlaySound]: the module was imported on Windows only, elsewhere
    the name is unbound. *)
Definition winsound_PlaySound (sound : string) (flags : Z) : py unit :=
  system ← ask os;
  match system with
  | Windows =>
      emit (PlaySound sound flags);;
      ok ← ask (fun w => playable w sound);
      if ok : bool then ret tt else raise (RuntimeError "Failed to play sound")
  | _ => raise (NameError "name 'winsound' is not defined")
  end.

Definition reproducir_audio : py unit :=
  try_except (name ← get wav_file_name; winsound_PlaySound name SND_FILENAME)
    (fun e => print ("Error reproduciendo audio: " +:+ py_str e)).

(** [self] after lines 48-60 of [__init__]. *)
Definition fresh : AudioApp :=
  mkApp [] "u.wav" None None None (Mpl.subplots (10, 4)).

(** [AudioApp()]: the three calls of lines 63-65 on the fresh object. *)
Definition __init__ (w : World) : state * outcome unit :=
  (load_audio;; plot_audio;; create_widgets) (State w fresh).

(** The callback a button runs; the save dialog's answer comes with the click. *)
Definition click (c : command) (dialog : string) : py unit :=
  match c with
  | GuardarImagenCompleta => guardar_imagen_completa dialog
  | ReproducirAudio => reproducir_audio
  end.

(** Tk runs a callback inside a wrapper that reports whatever it raises and
    goes back to the event loop. *)
Definition tk_call (callback : py unit) : py unit :=
  fun s => match callback s with
           | (s', Raises _) => print "Exception in Tkinter callback" s'
           | r => r
           end.

(** Tk's [mainloop], for the clicks the user makes before closing the
    window. *)
Fixpoint mainloop (clicks : list (command * string)) : py unit :=
  match clicks with
  | [] => ret tt
  | (c, dialog) :: rest => tk_call (click c dialog);; mainloop rest
  end.

Definition run (clicks : list (command * string)) : py unit := mainloop clicks.

(** [app = AudioApp(); app.run()] *)
Definition main (clicks : list (command * string)) (w : World) : state * outcome unit :=
  match __init__ w with
  | (s, Returns _) => run clicks s
  | r => r
  end.

(** *** Files for the examples *)

Definition encode16 (z : Z) : list byte :=
  let u := z mod 65536 in
  [default x00 (Byte.of_N (Z.to_N (u mod 256)));
   default x00 (Byte.of_N (Z.to_N (u / 256)))].

(** The data chunk of a file whose frames hold [nchannels] int16 samples each. *)
Definition encode_frames (frames : list (list Z)) : list byte :=
  concat (map (fun fr => concat (map encode16 fr)) frames).

Definition mono16 (rate : Z) (samples : list Z) : Wave.wav :=
  Wave.Wav 1 2 rate (concat (map encode16 samples)).

Definition world_with (f : option file) : World :=
  mkWorld (match f with Some x => {[ "u.wav" := x ]} | None => ∅ end)
          Windows (fun _ => true) (fun _ _ => None) [].

(** The last point of the time axis as the spec words it,
    [(n-1)/n × (n / sample_rate)], in float64. *)
Definition spec_last_time (n rate : Z) : float :=
  (Np.Z2f (n - 1) / Np.Z2f n * (Np.Z2f n / Np.Z2f rate))%float.

(** *** Binary64 vocabulary *)

Definition two52 : Z := 4503599627370496.
Definition two53 : Z := 9007199254740992.
Definition two54 : Z := 18014398509481984.

(** A mantissa with exactly 53 digits. *)
Definition normal53 (m : positive) : Prop := two52 <= Zpos m < two53.

(** The number of binary digits of a positive integer. *)
Definition bits (z : Z) : Z := Z.log2 z + 1.

Definition signed (s : bool) (x : Z) : Z := if s then - x else x.

(** *** Vocabulary of the whole-program properties *)

(** A file the body of [load_audio] gets through: a parsed WAV whose data
    chunk holds whole int16 samples, at least one, with a non-zero frame
    rate. *)
Definition loadable (w : World) (name : string) : Prop :=
  exists f,
    fs w !! name = Some (WavFile f) /\
    Nat.even (length (Wave.data f)) = true /\
    Wave.data f <> [] /\
    Wave.framerate f <> 0.

(** The calls of [winsound.PlaySound] in a trace. *)
Definition is_PlaySound (e : event) : bool :=
  match e with
  | PlaySound _ _ => true
  | _ => false
  end.

(** A click on the button "Reproducir Audio". *)
Definition is_play_click (cd : command * string) : bool :=
  match fst cd with
  | ReproducirAudio => true
  | GuardarImagenCompleta => false
  end.

(** [f] on the [n] integers from [p] on. *)
Fixpoint all_from (f : Z -> bool) (n : nat) (p : Z) : bool :=
  match n with
  | O => true
  | S n => f p && all_from f n (p + 1)
  end.

(** * Properties *)

(** ** Binary64 division of integers

    numpy converts the int16 samples and their peak to float64 and divides;
    Python divides the buffer length by the frame rate.  The primitive
    division is specified by [div_spec] as [SFdiv], the IEEE 754 algorithm on
    mantissa and exponent.  This section follows that algorithm on operands
    that are integers below 2^53: the quotient is a normal number, it does not
    exceed 1 in magnitude when the numerator does not exceed the denominator,
    and it is exactly 1 when they are equal. *)

(** *** Counting digits *)

Lemma digits2_pos_log2 (p : positive) :
  Zpos (digits2_pos p) = Z.log2 (Zpos p) + 1.
Proof.
  induction p as [p IH|p IH|]; cbn [digits2_pos].
  - rewrite Pos2Z.inj_succ, IH.
    change (Zpos p~1) with (2 * Zpos p + 1).
    rewrite Z.log2_succ_double by lia. lia.
  - rewrite Pos2Z.inj_succ, IH.
    change (Zpos p~0) with (2 * Zpos p).
    rewrite Z.log2_double by lia. lia.
  - reflexivity.
Qed.

Lemma Zdigits2_pos_bounds (q d : Z) :
  0 < d -> 2 ^ (d - 1) <= q < 2 ^ d -> Zdigits2 q = d.
Proof.
  intros Hd [Hlo Hhi].
  assert (0 < q) by (pose proof (Z.pow_pos_nonneg 2 (d - 1)); lia).
  destruct q as [|p|p]; try lia. cbn [Zdigits2].
  rewrite digits2_pos_log2.
  rewrite (Z.log2_unique (Zpos p) (d - 1)).
  - lia.
  - lia.
  - replace (Z.succ (d - 1)) with d by lia. lia.
Qed.

Lemma Zdigits2_53 (q : Z) : two52 <= q < two53 -> Zdigits2 q = 53.
Proof. intros H. apply Zdigits2_pos_bounds; [lia | exact H]. Qed.

Lemma Zdigits2_54 (q : Z) : two53 <= q < two54 -> Zdigits2 q = 54.
Proof. intros H. apply Zdigits2_pos_bounds; [lia | exact H]. Qed.

Lemma bits_spec (z : Z) : 0 < z -> 2 ^ (bits z - 1) <= z < 2 ^ bits z.
Proof.
  intros Hz. unfold bits. replace (Z.log2 z + 1 - 1) with (Z.log2 z) by lia.
  replace (Z.log2 z + 1) with (Z.succ (Z.log2 z)) by lia.
  apply Z.log2_spec, Hz.
Qed.

Lemma bits_range (z : Z) : 0 < z < two53 -> 1 <= bits z <= 53.
Proof.
  intros Hz. unfold bits. pose proof (Z.log2_nonneg z).
  assert (Z.log2 z < 53); [|lia].
  apply Z.log2_lt_pow2; [lia|]. change (2 ^ 53) with two53. lia.
Qed.

Lemma bits_mono (a b : Z) : 0 < a <= b -> bits a <= bits b.
Proof. intros H. unfold bits. pose proof (Z.log2_le_mono a b). lia. Qed.

(** Shifted up to 53 digits, an integer below 2^53 is a normal mantissa. *)
Lemma scaled_normal (z : Z) :
  0 < z < two53 -> two52 <= z * 2 ^ (53 - bits z) < two53.
Proof.
  intros Hz. pose proof (bits_range z Hz) as Hd.
  pose proof (bits_spec z ltac:(lia)) as Hb. set (d := bits z) in *.
  replace two52 with (2 ^ (d - 1) * 2 ^ (53 - d))
    by (rewrite <- Z.pow_add_r by lia; replace (d - 1 + (53 - d)) with 52 by lia;
        reflexivity).
  replace two53 with (2 ^ d * 2 ^ (53 - d))
    by (rewrite <- Z.pow_add_r by lia; replace (d + (53 - d)) with 53 by lia;
        reflexivity).
  assert (0 < 2 ^ (53 - d)) by (apply Z.pow_pos_nonneg; lia). nia.
Qed.

Lemma Pos_iter_xO (p k : positive) :
  Zpos (Pos.iter xO p k) = Zpos p * 2 ^ Zpos k.
Proof.
  induction k as [|k IH] using Pos.peano_ind.
  - cbn [Pos.iter]. lia.
  - rewrite Pos.iter_succ, Pos2Z.inj_succ, Z.pow_succ_r by lia.
    change (Zpos (Pos.iter xO p k)~0) with (2 * Zpos (Pos.iter xO p k)). lia.
Qed.

(** *** Rounding a mantissa of 53 or 54 digits *)

Lemma loc_of_shr_record_of_loc (m : Z) (l : location) :
  loc_of_shr_record (shr_record_of_loc m l) = l.
Proof. destruct l as [|[]]; reflexivity. Qed.

Lemma shr_m_of_loc (m : Z) (l : location) : shr_m (shr_record_of_loc m l) = m.
Proof. destruct l as [|[]]; reflexivity. Qed.

Lemma round_nearest_even_cases (m : Z) (l : location) :
  round_nearest_even m l = m \/ round_nearest_even m l = m + 1.
Proof.
  destruct l as [|[]]; cbn; auto. destruct (Z.even m); auto.
Qed.

Lemma fexp_normal (e : Z) : -1074 <= e - 53 -> fexp prec emax e = e - 53.
Proof. unfold fexp, emin, prec, emax. lia. Qed.

(** 53 digits stay as they are, 54 digits lose the last one. *)
Lemma shr_fexp_53 (m e : Z) (l : location) :
  two52 <= m < two53 -> -1074 <= e ->
  shr_fexp prec emax m e l = (shr_record_of_loc m l, e).
Proof.
  intros Hm He. unfold shr_fexp. rewrite (Zdigits2_53 m Hm).
  rewrite fexp_normal by lia. replace (53 + e - 53 - e) with 0 by lia. reflexivity.
Qed.

Lemma shr_fexp_54 (m e : Z) (l : location) :
  two53 <= m < two54 -> -1074 <= e ->
  shr_fexp prec emax m e l = (shr_1 (shr_record_of_loc m l), e + 1).
Proof.
  intros Hm He. unfold shr_fexp. rewrite (Zdigits2_54 m Hm).
  rewrite fexp_normal by lia. replace (54 + e - 53 - e) with 1 by lia. reflexivity.
Qed.

Lemma shr_1_m (mrs : shr_record) :
  0 <= shr_m mrs -> shr_m (shr_1 mrs) = shr_m mrs / 2.
Proof.
  destruct mrs as [m r s]. cbn [shr_m]. intros Hm.
  destruct m as [|[p|p|]|p]; cbn [shr_1 shr_m]; try lia; try reflexivity.
  - change (Zpos p~1) with (2 * Zpos p + 1). Z.div_mod_to_equations; lia.
  - change (Zpos p~0) with (2 * Zpos p). Z.div_mod_to_equations; lia.
Qed.

(** The second pass of [binary_round_aux]: a rounded mantissa that reached
    2^53 is halved, any other is kept. *)
Lemma round_finish (m e : Z) :
  two52 <= m <= two53 -> -1074 <= e <= 970 ->
  let '(mrs, e') := shr_fexp prec emax m e loc_Exact in
  exists m' : positive,
    shr_m mrs = Zpos m' /\ (e' <=? emax - prec) = true /\
    ((m < two53 /\ Zpos m' = m /\ e' = e) \/
     (m = two53 /\ Zpos m' = two52 /\ e' = e + 1)).
Proof.
  intros Hm He. destruct (Z.eq_dec m two53) as [->|Hne].
  - rewrite shr_fexp_54 by (unfold two53, two54; lia).
    exists (Z.to_pos two52). split; [reflexivity|]. split.
    + unfold emax, prec. apply Z.leb_le. lia.
    + right. repeat split.
  - rewrite shr_fexp_53 by lia. cbn [shr_record_of_loc shr_m].
    exists (Z.to_pos m). rewrite Z2Pos.id by (unfold two52 in *; lia).
    split; [reflexivity|]. split.
    + unfold emax, prec. apply Z.leb_le. lia.
    + left. repeat split. lia.
Qed.

Lemma binary_round_aux_53 (sx : bool) (q e : Z) (l : location) :
  two52 <= q < two53 -> -1074 <= e <= 970 ->
  exists m e2,
    binary_round_aux prec emax sx q e l = S754_finite sx m e2 /\
    ((e2 = e /\ q <= Zpos m < two53) \/ (e2 = e + 1 /\ Zpos m = two52)) /\
    (l = loc_Exact -> Zpos m = q /\ e2 = e).
Proof.
  intros Hq He. unfold binary_round_aux.
  rewrite shr_fexp_53 by lia.
  rewrite shr_m_of_loc, loc_of_shr_record_of_loc.
  set (m1 := round_nearest_even q l).
  assert (Hm1 : m1 = q \/ m1 = q + 1) by apply round_nearest_even_cases.
  pose proof (round_finish m1 e) as Hfin.
  destruct (shr_fexp prec emax m1 e loc_Exact) as [mrs e2].
  destruct Hfin as (m' & Hmrs & Hle & Hcase); [lia | lia |].
  rewrite Hmrs, Hle. exists m', e2. split; [reflexivity|]. split.
  - destruct Hcase as [(? & ? & ?)|(? & ? & ?)]; [left | right]; lia.
  - intros ->. subst m1. cbn [round_nearest_even] in *.
    destruct Hcase as [(? & ? & ?)|(? & ? & ?)]; lia.
Qed.

Lemma binary_round_aux_54 (sx : bool) (q e : Z) (l : location) :
  two53 <= q < two54 -> -1074 <= e <= 969 ->
  exists m e2,
    binary_round_aux prec emax sx q e l = S754_finite sx m e2 /\
    ((e2 = e + 1 /\ two52 <= Zpos m < two53) \/ (e2 = e + 2 /\ Zpos m = two52)) /\
    (l = loc_Exact -> q = two53 -> Zpos m = two52 /\ e2 = e + 1).
Proof.
  intros Hq He. unfold binary_round_aux.
  rewrite shr_fexp_54 by lia.
  set (mrs1 := shr_1 (shr_record_of_loc q l)).
  assert (Hh : shr_m mrs1 = q / 2).
  { subst mrs1. rewrite shr_1_m; rewrite shr_m_of_loc; [reflexivity|].
    unfold two53 in *; lia. }
  set (m1 := round_nearest_even (shr_m mrs1) (loc_of_shr_record mrs1)).
  assert (Hm1 : m1 = q / 2 \/ m1 = q / 2 + 1).
  { subst m1. rewrite <- Hh. apply round_nearest_even_cases. }
  assert (Hq2 : two52 <= q / 2 < two53)
    by (unfold two52, two53, two54 in *; Z.div_mod_to_equations; lia).
  pose proof (round_finish m1 (e + 1)) as Hfin.
  destruct (shr_fexp prec emax m1 (e + 1) loc_Exact) as [mrs e2].
  destruct Hfin as (m' & Hmrs & Hle & Hcase); [lia | lia |].
  rewrite Hmrs, Hle. exists m', e2. split; [reflexivity|]. split.
  - destruct Hcase as [(? & ? & ?)|(? & ? & ?)]; [left | right]; lia.
  - intros -> ->. subst m1 mrs1. cbn in Hcase.
    destruct Hcase as [(? & ? & ?)|(? & ? & ?)]; [|discriminate].
    unfold two52. lia.
Qed.

(** *** Division of normal numbers *)

(** The quotient of two normal numbers is normal; its exponent follows from
    the exponents and from which mantissa is the larger, up to the one step a
    rounding carry adds; equal mantissas give the mantissa 2^52. *)
Lemma SF64div_normal (s1 s2 : bool) (m1 m2 : positive) (e1 e2 : Z) :
  normal53 m1 -> normal53 m2 -> -1000 <= e1 - e2 <= 1000 ->
  exists m e,
    SF64div (S754_finite s1 m1 e1) (S754_finite s2 m2 e2)
    = S754_finite (xorb s1 s2) m e /\
    normal53 m /\
    (Zpos m1 < Zpos m2 ->
     e = e1 - e2 - 53 \/ (e = e1 - e2 - 52 /\ Zpos m = two52)) /\
    (Zpos m2 <= Zpos m1 ->
     e = e1 - e2 - 52 \/ (e = e1 - e2 - 51 /\ Zpos m = two52)) /\
    (m1 = m2 -> e = e1 - e2 - 52 /\ Zpos m = two52).
Proof.
  unfold normal53. intros H1 H2 He.
  unfold SF64div, SFdiv, SFdiv_core_binary.
  rewrite (Zdigits2_53 (Zpos m1) H1), (Zdigits2_53 (Zpos m2) H2).
  replace (53 + e1 - (53 + e2)) with (e1 - e2) by lia.
  rewrite fexp_normal by lia.
  rewrite Z.min_l by lia.
  replace (e1 - e2 - (e1 - e2 - 53)) with 53 by lia.
  rewrite Z.shiftl_mul_pow2 by lia. change (2 ^ 53) with two53.
  pose proof (Z_div_mod (Zpos m1 * two53) (Zpos m2) eq_refl) as Hdiv.
  destruct (Z.div_eucl (Zpos m1 * two53) (Zpos m2)) as [q r].
  destruct Hdiv as [Hqr Hr].
  set (l := new_location (Zpos m2) r).
  assert (Hq : two52 <= q < two54) by (unfold two52, two53, two54 in *; nia).
  destruct (Z_lt_le_dec q two53) as [Hlt|Hge].
  - destruct (binary_round_aux_53 (xorb s1 s2) q (e1 - e2 - 53) l)
      as (m & e & -> & Hcase & Hex); [lia | lia |].
    exists m, e. split; [reflexivity|]. split.
    { unfold two52, two53 in *; lia. }
    split; [|split].
    + intros _. lia.
    + intros Hm. exfalso. unfold two52, two53, two54 in *; nia.
    + intros ->. exfalso. unfold two52, two53, two54 in *; nia.
  - destruct (binary_round_aux_54 (xorb s1 s2) q (e1 - e2 - 53) l)
      as (m & e & -> & Hcase & Hex); [lia | lia |].
    exists m, e. split; [reflexivity|]. split.
    { unfold two52, two53 in *; lia. }
    split; [|split].
    + intros Hm. exfalso. unfold two52, two53, two54 in *; nia.
    + intros _. lia.
    + intros ->.
      assert (q = two53 /\ r = 0) as [-> ->] by (unfold two52, two53, two54 in *; nia).
      destruct Hex as [? ?]; [|reflexivity|lia].
      subst l. unfold new_location, new_location_even, new_location_odd.
      destruct (Z.even _); reflexivity.
Qed.

(** *** Integers as floats *)

(** An integer below 2^53 converts exactly: the mantissa is the integer
    shifted up to 53 digits. *)
Lemma binary_round_int (s : bool) (p : positive) :
  Zpos p < two53 ->
  exists m,
    binary_round prec emax s p 0 = S754_finite s m (bits (Zpos p) - 53) /\
    Zpos m = Zpos p * 2 ^ (53 - bits (Zpos p)) /\
    normal53 m.
Proof.
  intros Hp. set (d := bits (Zpos p)).
  assert (Hd : 1 <= d <= 53) by (apply bits_range; lia).
  assert (Hscale : two52 <= Zpos p * 2 ^ (53 - d) < two53)
    by (apply scaled_normal; lia).
  unfold binary_round.
  assert (Hdig : Zpos (digits2_pos p) = d) by apply digits2_pos_log2.
  rewrite Hdig, Z.add_0_r.
  rewrite fexp_normal by lia.
  unfold shl_align, normal53. rewrite Z.sub_0_r.
  destruct (d - 53) as [|k|k] eqn:Hk; try lia; cbv beta iota zeta.
  - replace (53 - d) with 0 in * by lia. rewrite Z.mul_1_r in *.
    destruct (binary_round_aux_53 s (Zpos p) 0 loc_Exact)
      as (m & e2 & -> & _ & Hex); [lia | lia |].
    destruct (Hex eq_refl) as [Hm ->]. exists m.
    split; [reflexivity|]. split; lia.
  - assert (Hs : 53 - d = Zpos k) by lia. rewrite Hs in *.
    rewrite <- (Pos_iter_xO p k) in *.
    destruct (binary_round_aux_53 s (Zpos (Pos.iter xO p k)) (Zneg k) loc_Exact)
      as (m & e2 & -> & _ & Hex); [lia | lia |].
    destruct (Hex eq_refl) as [Hm ->]. exists m.
    split; [reflexivity|]. split; lia.
Qed.

Lemma valid_normal (s : bool) (m : positive) (e : Z) :
  normal53 m -> -1074 <= e <= 971 ->
  valid_binary (S754_finite s m e) = true.
Proof.
  intros Hm He.
  unfold valid_binary, SpecFloat.valid_binary, bounded, canonical_mantissa.
  change (Zpos (digits2_pos m)) with (Zdigits2 (Zpos m)).
  rewrite (Zdigits2_53 _ Hm), fexp_normal by lia.
  apply andb_true_intro. split; [apply Z.eqb_eq; lia|].
  apply Z.leb_le. unfold emax, prec. lia.
Qed.

Lemma Prim2SF_Z2f_signed (s : bool) (z : Z) :
  0 < z < two53 ->
  exists m,
    Prim2SF (Np.Z2f (signed s z)) = S754_finite s m (bits z - 53) /\
    Zpos m = z * 2 ^ (53 - bits z) /\ normal53 m.
Proof.
  intros Hz. destruct z as [|p|p]; try lia.
  destruct (binary_round_int s p) as (m & Hm & Hv & Hn); [lia|].
  pose proof (bits_range (Zpos p) Hz).
  exists m. unfold Np.Z2f.
  replace (binary_normalize prec emax (signed s (Zpos p)) 0 false)
    with (binary_round prec emax s p 0) by (destruct s; reflexivity).
  rewrite Hm, Prim2SF_SF2Prim by (apply valid_normal; [exact Hn | lia]).
  split; [reflexivity|]. split; [exact Hv | exact Hn].
Qed.

Lemma Prim2SF_Z2f_pos (z : Z) :
  0 < z < two53 ->
  exists m,
    Prim2SF (Np.Z2f z) = S754_finite false m (bits z - 53) /\
    Zpos m = z * 2 ^ (53 - bits z) /\ normal53 m.
Proof. exact (Prim2SF_Z2f_signed false z). Qed.

Lemma Prim2SF_zero : Prim2SF 0 = S754_zero false.
Proof. reflexivity. Qed.

Lemma Prim2SF_infinity : Prim2SF infinity = S754_infinity false.
Proof. reflexivity. Qed.

Lemma Prim2SF_one : Prim2SF 1 = S754_finite false 4503599627370496 (-52).
Proof. reflexivity. Qed.

Lemma Prim2SF_minus_one : Prim2SF (-1) = S754_finite true 4503599627370496 (-52).
Proof. reflexivity. Qed.

(** *** Quotients of integers *)

(** The float64 quotient of two integers of magnitude below 2^53, the
    numerator not above the denominator: it is below 1 in magnitude, or has
    the mantissa and exponent of 1; the latter when the two are equal. *)
Lemma Z2f_div_rep (s : bool) (x p : Z) :
  0 < x <= p -> p < two53 ->
  exists m e,
    Prim2SF (Np.Z2f (signed s x) / Np.Z2f p) = S754_finite s m e /\
    (e < -52 \/ (e = -52 /\ m = 4503599627370496%positive)) /\
    (x = p -> e = -52 /\ m = 4503599627370496%positive).
Proof.
  intros Hx Hp. rewrite div_spec.
  destruct (Prim2SF_Z2f_signed s x) as (m1 & -> & Hv1 & Hn1); [lia|].
  destruct (Prim2SF_Z2f_pos p) as (m2 & -> & Hv2 & Hn2); [lia|].
  pose proof (bits_range x ltac:(lia)) as Hbx.
  pose proof (bits_range p ltac:(lia)) as Hbp.
  pose proof (bits_mono x p ltac:(lia)) as Hmono.
  destruct (SF64div_normal s false m1 m2 (bits x - 53) (bits p - 53))
    as (m & e & -> & Hm & Hlt & Hge & Heq); [exact Hn1 | exact Hn2 | lia |].
  rewrite xorb_false_r. exists m, e. split; [reflexivity|].
  assert (Hpos : forall k, Zpos k = two52 -> k = 4503599627370496%positive)
    by (intros k Hk; unfold two52 in Hk; congruence).
  assert (Hself : x = p -> e = -52 /\ m = 4503599627370496%positive).
  { intros ->. assert (m1 = m2) as E by (apply Pos2Z.inj; congruence).
    destruct (Heq E) as [-> Hm52]. split; [lia | apply Hpos, Hm52]. }
  split; [|exact Hself].
  destruct (Z.eq_dec x p) as [E|Hne]; [right; apply Hself, E|].
  destruct (Z.eq_dec (bits x) (bits p)) as [Eb|Hb].
  - assert (Zpos m1 < Zpos m2).
    { rewrite Hv1, Hv2, Eb.
      assert (0 < 2 ^ (53 - bits p)) by (apply Z.pow_pos_nonneg; lia). nia. }
    destruct (Hlt ltac:(lia)) as [->|[-> Hm52]]; [left; lia|].
    right. split; [lia | apply Hpos, Hm52].
  - destruct (Z_lt_le_dec (Zpos m1) (Zpos m2)) as [Hc|Hc].
    + destruct (Hlt Hc) as [->|[-> _]]; left; lia.
    + destruct (Hge Hc) as [->|[-> Hm52]]; [left; lia|].
      destruct (Z.eq_dec (bits x - 53 - (bits p - 53) - 51) (-52)) as [E|E];
        [right; split; [lia | apply Hpos, Hm52] | left; lia].
Qed.

(** Such a number lies between -1 and 1. *)
Lemma SFleb_unit (s : bool) (m : positive) (e : Z) :
  e < -52 \/ (e = -52 /\ m = 4503599627370496%positive) ->
  SFleb (Prim2SF (-1)) (S754_finite s m e) = true /\
  SFleb (S754_finite s m e) (Prim2SF 1) = true.
Proof.
  intros H. rewrite Prim2SF_one, Prim2SF_minus_one.
  unfold SFleb, SFcompare. destruct s.
  - split; [|reflexivity]. destruct H as [H|[-> ->]]; [|reflexivity].
    rewrite (proj2 (Z.compare_gt_iff (-52) e) H). reflexivity.
  - split; [reflexivity|]. destruct H as [H|[-> ->]]; [|reflexivity].
    rewrite (proj2 (Z.compare_lt_iff e (-52)) H). reflexivity.
Qed.

Theorem Z2f_div_in_unit_interval (x p : Z) :
  0 < p < two53 -> - p <= x <= p ->
  (-1 <=? Np.Z2f x / Np.Z2f p)%float = true /\
  (Np.Z2f x / Np.Z2f p <=? 1)%float = true.
Proof.
  intros Hp Hx. rewrite !leb_spec.
  destruct (Z.lt_trichotomy x 0) as [Hneg|[->|Hpos]].
  - destruct (Z2f_div_rep true (- x) p) as (m & e & Hrep & Hle & _); [lia | lia |].
    cbn [signed] in Hrep. rewrite Z.opp_involutive in Hrep. rewrite Hrep.
    apply SFleb_unit, Hle.
  - destruct (Prim2SF_Z2f_pos p) as (m2 & Hrep & _); [lia|].
    rewrite div_spec, Hrep. split; reflexivity.
  - destruct (Z2f_div_rep false x p) as (m & e & Hrep & Hle & _); [lia | lia |].
    cbn [signed] in Hrep. rewrite Hrep.
    apply SFleb_unit, Hle.
Qed.

Theorem Z2f_div_self (p : Z) :
  0 < p < two53 ->
  (Np.Z2f p / Np.Z2f p = 1)%float /\ (Np.Z2f (- p) / Np.Z2f p = -1)%float.
Proof.
  intros Hp. split; apply Prim2SF_inj.
  - destruct (Z2f_div_rep false p p) as (m & e & Hrep & _ & Hself); [lia | lia |].
    cbn [signed] in Hrep. rewrite Hrep. destruct (Hself eq_refl) as [-> ->].
    reflexivity.
  - destruct (Z2f_div_rep true p p) as (m & e & Hrep & _ & Hself); [lia | lia |].
    cbn [signed] in Hrep. rewrite Hrep. destruct (Hself eq_refl) as [-> ->].
    reflexivity.
Qed.

(** The quotient of two positive integers below 2^53 is a normal number. *)
Lemma Z2f_div_normal (a b : Z) :
  0 < a < two53 -> 0 < b < two53 ->
  exists m e,
    Prim2SF (Np.Z2f a / Np.Z2f b) = S754_finite false m e /\
    normal53 m /\ -105 <= e <= 1.
Proof.
  intros Ha Hb. rewrite div_spec.
  destruct (Prim2SF_Z2f_pos a Ha) as (m1 & -> & _ & Hn1).
  destruct (Prim2SF_Z2f_pos b Hb) as (m2 & -> & _ & Hn2).
  pose proof (bits_range a Ha). pose proof (bits_range b Hb).
  destruct (SF64div_normal false false m1 m2 (bits a - 53) (bits b - 53))
    as (m & e & -> & Hm & Hlt & Hge & _); [exact Hn1 | exact Hn2 | lia |].
  exists m, e. split; [reflexivity|]. split; [exact Hm|].
  destruct (Z_lt_le_dec (Zpos m1) (Zpos m2)) as [Hc|Hc];
    [destruct (Hlt Hc) as [->|[-> _]] | destruct (Hge Hc) as [->|[-> _]]]; lia.
Qed.

(** So is a normal number divided by such an integer. *)
Lemma div_normal_by_Z2f (x : float) (m : positive) (e c : Z) :
  Prim2SF x = S754_finite false m e -> normal53 m -> -200 <= e <= 200 ->
  0 < c < two53 ->
  exists m' e',
    Prim2SF (x / Np.Z2f c) = S754_finite false m' e' /\ normal53 m'.
Proof.
  intros Hx Hm He Hc. rewrite div_spec, Hx.
  destruct (Prim2SF_Z2f_pos c Hc) as (m2 & -> & _ & Hn2).
  pose proof (bits_range c Hc).
  destruct (SF64div_normal false false m m2 e (bits c - 53))
    as (m' & e' & -> & Hm' & _); [exact Hm | exact Hn2 | lia |].
  exists m', e'. split; [reflexivity | exact Hm'].
Qed.

(** *** Finite numbers *)

Lemma sub_zero_finite (x : float) (s : bool) (m : positive) (e : Z) :
  Prim2SF x = S754_finite s m e -> (x - 0)%float = x.
Proof.
  intros Hx. apply Prim2SF_inj. rewrite sub_spec, Hx, Prim2SF_zero. reflexivity.
Qed.

Lemma finite_nonzero (x : float) (m : positive) (e : Z) :
  Prim2SF x = S754_finite false m e ->
  (x =? 0)%float = false /\ is_finite x = true.
Proof.
  intros Hx. unfold is_finite, is_nan, is_infinity.
  rewrite !FloatAxioms.eqb_spec, abs_spec, Hx, Prim2SF_zero, Prim2SF_infinity.
  split; [reflexivity|].
  unfold SFeqb, SFcompare, SFabs. rewrite Z.compare_refl, Pos.compare_cont_refl.
  reflexivity.
Qed.

(** In float64, 0 × x + 0 is 0 for every finite x. *)
Lemma zero_mul_add_zero (x : float) :
  is_finite x = true -> (0 * x + 0)%float = 0%float.
Proof.
  unfold is_finite, is_nan, is_infinity. rewrite !FloatAxioms.eqb_spec, abs_spec.
  intros Hfin. apply Prim2SF_inj. rewrite add_spec, mul_spec.
  destruct (Prim2SF x) as [[]|[]| |[] m e]; try discriminate Hfin; reflexivity.
Qed.

(** ** Bytes and int16 samples *)

Lemma byte_val_range (b : byte) : 0 <= Np.byte_val b <= 255.
Proof.
  unfold Np.byte_val. pose proof (Byte.to_N_bounded b). lia.
Qed.

Lemma byte_of_byte_val (b : byte) :
  Byte.of_N (Z.to_N (Np.byte_val b)) = Some b.
Proof.
  unfold Np.byte_val. rewrite N2Z.id. apply Byte.of_to_N.
Qed.

Lemma byte_val_of_N (z : Z) :
  0 <= z <= 255 ->
  Np.byte_val (default x00 (Byte.of_N (Z.to_N z))) = z.
Proof.
  intros Hz. destruct (Byte.of_N (Z.to_N z)) as [b|] eqn:E.
  - apply Byte.to_of_N in E. unfold Np.byte_val. simpl. rewrite E. lia.
  - apply Byte.of_N_None_iff in E. lia.
Qed.

Lemma wrap16_is_int16 (z : Z) : Np.is_int16 (Np.wrap16 z).
Proof.
  unfold Np.is_int16, Np.wrap16, Np.int16_min, Np.int16_max.
  pose proof (Z.mod_pos_bound (z + 32768) 65536). lia.
Qed.

Lemma wrap16_id (z : Z) : Np.is_int16 z -> Np.wrap16 z = z.
Proof.
  unfold Np.is_int16, Np.wrap16, Np.int16_min, Np.int16_max. intros Hz.
  rewrite Z.mod_small; lia.
Qed.

Lemma wrap16_mod (z : Z) : Np.wrap16 z mod 65536 = z mod 65536.
Proof.
  unfold Np.wrap16.
  replace ((z + 32768) mod 65536 - 32768)
    with ((z + 32768) mod 65536 + (-32768)) by lia.
  rewrite Zplus_mod_idemp_l. f_equal. lia.
Qed.

Lemma encode16_int16_of_le (lo hi : byte) :
  encode16 (Np.int16_of_le lo hi) = [lo; hi].
Proof.
  unfold encode16, Np.int16_of_le. rewrite wrap16_mod.
  pose proof (byte_val_range lo). pose proof (byte_val_range hi).
  rewrite (Z.mod_small (_ + _)) by lia.
  replace ((Np.byte_val lo + 256 * Np.byte_val hi) mod 256) with (Np.byte_val lo)
    by (Z.div_mod_to_equations; lia).
  replace ((Np.byte_val lo + 256 * Np.byte_val hi) / 256) with (Np.byte_val hi)
    by (Z.div_mod_to_equations; lia).
  now rewrite !byte_of_byte_val.
Qed.

Lemma decode_le16_encode16 (z : Z) (rest : list byte) :
  Np.is_int16 z ->
  Np.decode_le16 (encode16 z ++ rest) = z :: Np.decode_le16 rest.
Proof.
  intros Hz. unfold encode16. cbn [app Np.decode_le16]. f_equal.
  unfold Np.int16_of_le.
  assert (0 <= z mod 65536 mod 256 <= 255) by (Z.div_mod_to_equations; lia).
  assert (0 <= z mod 65536 / 256 <= 255) by (Z.div_mod_to_equations; lia).
  rewrite !byte_val_of_N by assumption.
  unfold Np.is_int16, Np.int16_min, Np.int16_max in Hz. unfold Np.wrap16.
  Z.div_mod_to_equations; lia.
Qed.

(** Induction two elements at a time, the way [decode_le16] consumes a buffer. *)
Lemma list_pair_ind {A} (P : list A -> Prop) :
  P [] -> (forall x, P [x]) -> (forall x y l, P l -> P (x :: y :: l)) ->
  forall l, P l.
Proof.
  intros Hnil Hone Hstep l.
  enough (P l /\ forall x, P (x :: l)) by tauto.
  induction l as [|y l [IH1 IH2]]; split; auto.
Qed.

Lemma decode_le16_is_int16 (buf : list byte) :
  Forall Np.is_int16 (Np.decode_le16 buf).
Proof.
  induction buf as [| |lo hi rest IH] using list_pair_ind; cbn; auto.
  constructor; [apply wrap16_is_int16 | exact IH].
Qed.

Lemma decode_le16_length (buf : list byte) :
  Nat.even (length buf) = true ->
  (2 * length (Np.decode_le16 buf))%nat = length buf.
Proof.
  induction buf as [| |lo hi rest IH] using list_pair_ind; cbn; intros He.
  - reflexivity.
  - discriminate.
  - specialize (IH He). lia.
Qed.

Lemma decode_le16_lookup (buf : list byte) (i : nat) (lo hi : byte) :
  buf !! (2 * i)%nat = Some lo -> buf !! (2 * i + 1)%nat = Some hi ->
  Np.decode_le16 buf !! i = Some (Np.int16_of_le lo hi).
Proof.
  revert i. induction buf as [| |a b rest IH] using list_pair_ind; intros i Hlo Hhi.
  - discriminate.
  - destruct i; [discriminate|].
    replace (2 * S i)%nat with (S (S (2 * i))) in Hlo by lia. discriminate.
  - destruct i as [|i].
    + cbn in Hlo, Hhi. now simplify_eq.
    + replace (2 * S i)%nat with (S (S (2 * i))) in Hlo by lia.
      replace (2 * S i + 1)%nat with (S (S (2 * i + 1))) in Hhi by lia.
      cbn in Hlo, Hhi. cbn. now apply IH.
Qed.

(** Re-encoding the decoded samples gives back every byte of the buffer. *)
Lemma encode_decode_le16 (buf : list byte) :
  Nat.even (length buf) = true ->
  concat (map encode16 (Np.decode_le16 buf)) = buf.
Proof.
  induction buf as [| |lo hi rest IH] using list_pair_ind; intros He.
  - reflexivity.
  - discriminate.
  - cbn [Np.decode_le16 map concat].
    rewrite encode16_int16_of_le, IH by exact He. reflexivity.
Qed.

Lemma decode_encode_le16 (samples : list Z) :
  Forall Np.is_int16 samples ->
  Np.decode_le16 (concat (map encode16 samples)) = samples.
Proof.
  induction 1 as [|z l Hz _ IH]; [reflexivity|]. cbn [map concat].
  rewrite decode_le16_encode16 by exact Hz. now rewrite IH.
Qed.

Lemma encode16_length (z : Z) : length (encode16 z) = 2%nat.
Proof. reflexivity. Qed.

Lemma encoded_length (samples : list Z) :
  length (concat (map encode16 samples)) = (2 * length samples)%nat.
Proof.
  induction samples as [|z l IH]; cbn; [reflexivity|]. cbn in IH. lia.
Qed.

Lemma encoded_even (samples : list Z) :
  Nat.even (length (concat (map encode16 samples))) = true.
Proof.
  rewrite encoded_length, Nat.even_mul. reflexivity.
Qed.

Lemma encode_frames_flat (frames : list (list Z)) :
  encode_frames frames = concat (map encode16 (concat frames)).
Proof.
  unfold encode_frames. induction frames as [|fr l IH]; cbn; [reflexivity|].
  now rewrite IH, map_app, concat_app.
Qed.

Lemma frombuffer_encoded (samples : list Z) :
  Forall Np.is_int16 samples ->
  Np.frombuffer_int16 (concat (map encode16 samples)) = Returns samples.
Proof.
  intros H. unfold Np.frombuffer_int16.
  now rewrite encoded_even, decode_encode_le16.
Qed.

(** ** numpy.linspace *)

Lemma set_last_length (y : list float) (v : float) :
  length (Np.set_last y v) = length y.
Proof. unfold Np.set_last. apply length_insert. Qed.

Lemma linspace_length (start stop : float) (num : nat) :
  length (Np.linspace start stop num) = num.
Proof.
  unfold Np.linspace.
  repeat match goal with |- context [if ?b then _ else _] => destruct b end;
    rewrite ?set_last_length, !length_map, length_seq; reflexivity.
Qed.

(** With two points or more the end point is stored as given. *)
Lemma linspace_last (start stop : float) (num : nat) :
  (2 <= num)%nat -> last (Np.linspace start stop num) = Some stop.
Proof.
  intros Hn. unfold Np.linspace.
  destruct (Nat.ltb_spec 1 num) as [_|]; [|lia].
  match goal with |- last (Np.set_last ?l _) = _ => set (y := l) end.
  assert (Hy : length y = num).
  { subst y. repeat match goal with |- context [if ?b then _ else _] => destruct b end;
      rewrite !length_map, length_seq; reflexivity. }
  unfold Np.set_last. rewrite last_lookup, length_insert.
  apply list_lookup_insert_eq. lia.
Qed.

(** Before the end point the points are the multiples of the step. *)
Lemma linspace_lookup (start stop : float) (num i : nat) :
  (2 <= num)%nat -> (i < num - 1)%nat ->
  let step := ((stop - start) / Np.Z2f (Z.of_nat num - 1))%float in
  (step =? 0)%float = false ->
  Np.linspace start stop num !! i = Some (Np.Z2f (Z.of_nat i) * step + start)%float.
Proof.
  intros Hn Hi step Hstep. unfold Np.linspace.
  destruct (Nat.ltb_spec 1 num) as [_|]; [|lia].
  destruct (Z.ltb_spec 0 (Z.of_nat num - 1)) as [_|]; [|lia].
  fold step. rewrite Hstep. unfold Np.set_last.
  rewrite list_lookup_insert_ne by (rewrite !length_map, length_seq; lia).
  rewrite !list_lookup_fmap, lookup_seq_lt by lia. reflexivity.
Qed.

(** For a buffer length and a frame rate below 2^53 the step is a non-zero
    finite number and the axis starts at 0. *)
Lemma linspace_time_axis_start (n : nat) (rate : Z) :
  (1 <= n)%nat -> Z.of_nat n < two53 -> 0 < rate < two53 ->
  let stop := (Np.Z2f (Z.of_nat n) / Np.Z2f rate)%float in
  let step := ((stop - 0) / Np.Z2f (Z.of_nat n - 1))%float in
  Np.linspace 0 stop n !! 0%nat = Some 0%float /\
  ((2 <= n)%nat -> (step =? 0)%float = false).
Proof.
  intros Hn Hlt Hrate stop step.
  destruct (Z2f_div_normal (Z.of_nat n) rate) as (m & e & Hstop & Hm & He);
    [lia | lia |].
  fold stop in Hstop.
  pose proof (sub_zero_finite stop false m e Hstop) as Hdelta.
  destruct (Nat.eq_dec n 1%nat) as [->|Hn1].
  - split; [|lia].
    change (Np.linspace 0 stop 1%nat) with [(0 * (stop - 0) + 0)%float].
    rewrite Hdelta. cbn [lookup list_lookup]. f_equal.
    apply zero_mul_add_zero. exact (proj2 (finite_nonzero stop m e Hstop)).
  - destruct (div_normal_by_Z2f stop m e (Z.of_nat n - 1) Hstop Hm)
      as (m' & e' & Hstep & _); [lia | lia |].
    rewrite <- Hdelta in Hstep. fold step in Hstep.
    destruct (finite_nonzero step m' e' Hstep) as [Hnz Hfin].
    split; [|intros _; exact Hnz].
    rewrite linspace_lookup by (fold step; assumption || lia).
    fold step. change (Np.Z2f (Z.of_nat 0)) with 0%float. f_equal.
    apply zero_mul_add_zero. exact Hfin.
Qed.

(** ** load_audio *)

Ltac py_unfold :=
  unfold mbind, py_bind, bind, get, ask, lift, modify_self, print, emit, ret, raise,
    write_file in *.

(** The body of the [try] runs to its end exactly on a readable file with
    whole, at least one, int16 samples and a non-zero frame rate; this is what
    it leaves behind. *)
Lemma load_audio_try_returns (s s' : state) :
  load_audio_try s = (s', Returns tt) <->
  exists w raw peak,
    fs (world s) !! wav_file_name (self s) = Some (WavFile w) /\
    Np.frombuffer_int16 (Wave.data w) = Returns raw /\
    Np.max_int16 (Np.abs_int16 raw) = Returns peak /\
    Wave.framerate w <> 0 /\
    s' = State (world s)
           (mkApp (widgets (self s)) (wav_file_name (self s))
              (Some (Np.Float64Array (Np.true_divide raw peak)))
              (Some (Wave.framerate w))
              (Some (Np.linspace 0
                       (Np.Z2f (Z.of_nat (length raw)) / Np.Z2f (Wave.framerate w))
                       (length raw)))
              (fig (self s))).
Proof.
  unfold load_audio_try, wave_open, Np.py_truediv, Wave.getframerate, Wave.readframes.
  py_unfold. cbn.
  split.
  - destruct (fs (world s) !! wav_file_name (self s)) as [[w| | |]|]; try discriminate.
    destruct (Np.frombuffer_int16 (Wave.data w)) as [raw|] eqn:Hraw; [|discriminate].
    cbn.
    destruct (Np.max_int16 (Np.abs_int16 raw)) as [peak|] eqn:Hpeak; [|discriminate].
    cbn.
    destruct (Z.eqb_spec (Wave.framerate w) 0) as [|Hr]; [discriminate|]. cbn.
    intros [= <-]. exists w, raw, peak.
    unfold Np.true_divide. rewrite length_map. repeat split; auto.
  - intros (w & raw & peak & -> & -> & Hp & Hr & ->). cbn. rewrite Hp. cbn.
    destruct (Z.eqb_spec (Wave.framerate w) 0) as [|_]; [contradiction|]. cbn.
    unfold Np.true_divide. rewrite length_map. reflexivity.
Qed.

(** A body that ran to its end is what [load_audio] returns. *)
Lemma load_audio_ok (s s' : state) :
  load_audio_try s = (s', Returns tt) -> load_audio s = (s', Returns tt).
Proof. unfold load_audio, try_except. now intros ->. Qed.

(** Whatever the body raises is an [Exception]. *)
Lemma load_audio_try_raises (s s' : state) (e : exn) :
  load_audio_try s = (s', Raises e) -> is_Exception e = true.
Proof.
  unfold load_audio_try, wave_open, Np.py_truediv, Np.frombuffer_int16, Np.max_int16.
  py_unfold. cbn.
  destruct (fs (world s) !! wav_file_name (self s)) as [[w| | |]|];
    try (intros [= <- <-]; reflexivity).
  destruct (Nat.even _); cbn; [|intros [= <- <-]; reflexivity].
  destruct (Np.abs_int16 _); cbn; [intros [= <- <-]; reflexivity|].
  destruct (Z.eqb _ 0); cbn; [intros [= <- <-]; reflexivity|discriminate].
Qed.

(** Once the samples are decoded and their peak taken, [audio_data] holds the
    quotients, whether or not the time axis can be built afterwards. *)
Lemma load_audio_audio_data (s : state) (w : Wave.wav) (raw : list Z) (peak : Z) :
  fs (world s) !! wav_file_name (self s) = Some (WavFile w) ->
  Np.frombuffer_int16 (Wave.data w) = Returns raw ->
  Np.max_int16 (Np.abs_int16 raw) = Returns peak ->
  audio_data (self (fst (load_audio s))) =
    Some (Np.Float64Array (Np.true_divide raw peak)).
Proof.
  intros Hf Hraw Hpeak.
  unfold load_audio, try_except, load_audio_try, wave_open, Np.py_truediv,
    Wave.getframerate, Wave.readframes.
  py_unfold. cbn. rewrite Hf, Hraw. cbn. rewrite Hpeak. cbn.
  destruct (Z.eqb (Wave.framerate w) 0); reflexivity.
Qed.

Lemma load_audio_returns (s : state) : exists s', load_audio s = (s', Returns tt).
Proof.
  unfold load_audio, try_except.
  destruct (load_audio_try s) as [s1 [[]|e]] eqn:E.
  - now exists s1.
  - rewrite (load_audio_try_raises _ _ _ E). unfold print, emit. eauto.
Qed.

(** ** Silent input *)

Lemma decode_le16_zeros (k : nat) :
  Np.decode_le16 (repeat x00 (2 * k)) = repeat 0 k.
Proof.
  induction k as [|k IH]; [reflexivity|].
  replace (2 * S k)%nat with (S (S (2 * k))) by lia.
  cbn [repeat Np.decode_le16]. now rewrite IH.
Qed.

Lemma frombuffer_zeros (k : nat) :
  Np.frombuffer_int16 (repeat x00 (2 * k)) = Returns (repeat 0 k).
Proof.
  unfold Np.frombuffer_int16.
  now rewrite repeat_length, Nat.even_mul, decode_le16_zeros.
Qed.

Lemma abs_int16_zeros (k : nat) : Np.abs_int16 (repeat 0 k) = repeat 0 k.
Proof.
  unfold Np.abs_int16. induction k as [|k IH]; [reflexivity|].
  cbn [repeat map]. now rewrite IH.
Qed.

Lemma max_int16_zeros (k : nat) :
  (0 < k)%nat -> Np.max_int16 (repeat 0 k) = Returns 0.
Proof.
  destruct k as [|k]; [lia|]. intros _. cbn. f_equal.
  induction k; cbn; auto.
Qed.

(** 0/0 in float64 is nan, for every sample. *)
Lemma true_divide_zeros (k : nat) :
  Np.true_divide (repeat 0 k) 0 = repeat nan k.
Proof.
  unfold Np.true_divide. induction k as [|k IH]; [reflexivity|].
  cbn [repeat map]. now rewrite IH.
Qed.

(** C9: [load_audio] returns to its caller on every state of the world and of
    the object, having caught and printed whatever its body raised; on a file
    of [k >= 1] zero samples it raises nothing (with a non-zero frame rate the
    body itself reaches its end and the world is untouched) and leaves [k]
    nan in [audio_data]. *)
Theorem load_audio_never_raises_silent_gives_nan :
  (forall s, exists s', load_audio s = (s', Returns tt)) /\
  (forall s s' e,
      load_audio_try s = (s', Raises e) ->
      load_audio s = print ("Error loading audio: " +:+ py_str e) s') /\
  (forall s w k,
      fs (world s) !! wav_file_name (self s) = Some (WavFile w) ->
      Wave.data w = repeat x00 (2 * k) ->
      (0 < k)%nat ->
      audio_data (self (fst (load_audio s))) =
        Some (Np.Float64Array (repeat nan k)) /\
      (Wave.framerate w <> 0 ->
       exists s', load_audio_try s = (s', Returns tt) /\ world s' = world s)).
Proof.
  split; [exact load_audio_returns|]. split.
  - intros s s' e E. unfold load_audio, try_except.
    now rewrite E, (load_audio_try_raises _ _ _ E).
  - intros s w k Hf Hd Hk.
    assert (Hraw : Np.frombuffer_int16 (Wave.data w) = Returns (repeat 0 k))
      by (rewrite Hd; apply frombuffer_zeros).
    assert (Hpeak : Np.max_int16 (Np.abs_int16 (repeat 0 k)) = Returns 0)
      by (rewrite abs_int16_zeros; now apply max_int16_zeros).
    split.
    + rewrite (load_audio_audio_data s w _ _ Hf Hraw Hpeak).
      now rewrite true_divide_zeros.
    + intros Hr. eexists. split.
      * apply load_audio_try_returns. exists w, (repeat 0 k), 0. eauto 10.
      * reflexivity.
Qed.

(** Three silent samples at 8000 Hz. *)
Lemma load_audio_never_raises_silent_gives_nan_witness :
  audio_data (self (fst (load_audio
     (State (world_with (Some (WavFile (Wave.Wav 1 2 8000 (repeat x00 (2 * 3))))))
            fresh)))) =
  Some (Np.Float64Array (repeat nan 3)).
Proof.
  refine (proj1 (proj2 (proj2 load_audio_never_raises_silent_gives_nan)
            (State (world_with (Some (WavFile (Wave.Wav 1 2 8000 (repeat x00 (2 * 3))))))
                   fresh)
            (Wave.Wav 1 2 8000 (repeat x00 (2 * 3))) 3%nat _ _ _)).
  - reflexivity.
  - reflexivity.
  - lia.
Defined.

(** ** Normalisation *)

Lemma fold_left_max_spec (l : list Z) (x : Z) :
  x <= fold_left Z.max l x /\
  Forall (fun y => y <= fold_left Z.max l x) l /\
  (fold_left Z.max l x = x \/ In (fold_left Z.max l x) l).
Proof.
  revert x. induction l as [|y l IH]; intros x; cbn [fold_left].
  - split; [lia|]. split; [constructor | now left].
  - destruct (IH (Z.max x y)) as (Hx & Hall & Hin).
    split; [lia|]. split; [constructor; [lia | exact Hall]|].
    destruct Hin as [E|Hin]; [|right; now right].
    rewrite E. destruct (Z.max_spec x y) as [[_ ->]|[_ ->]];
      [right; now left | now left].
Qed.

Lemma abs_int16_no_min (a : list Z) :
  Forall (fun x => -32767 <= x <= 32767) a -> Np.abs_int16 a = map Z.abs a.
Proof.
  unfold Np.abs_int16. induction 1 as [|x l Hx _ IH]; [reflexivity|].
  cbn [map]. rewrite IH. f_equal. apply wrap16_id.
  unfold Np.is_int16, Np.int16_min, Np.int16_max. lia.
Qed.

(** Away from -32768 the peak the code divides by is the largest magnitude of
    the buffer: no sample exceeds it and one sample attains it. *)
Lemma peak_is_largest_magnitude (a : list Z) (m : Z) :
  Forall (fun x => -32767 <= x <= 32767) a ->
  Np.max_int16 (Np.abs_int16 a) = Returns m ->
  Forall (fun x => Z.abs x <= m) a /\
  Exists (fun x => Z.abs x = m) a /\
  0 <= m <= 32767.
Proof.
  intros Hrange. rewrite (abs_int16_no_min a Hrange).
  destruct a as [|x l]; [discriminate|]. cbn [map Np.max_int16]. intros [= <-].
  destruct (fold_left_max_spec (map Z.abs l) (Z.abs x)) as (Hx & Hall & Hin).
  set (m := fold_left Z.max (map Z.abs l) (Z.abs x)) in *.
  assert (Hm : Exists (fun y => Z.abs y = m) (x :: l)).
  { destruct Hin as [E|Hin]; [now left|]. right.
    apply in_map_iff in Hin as (y & Hy & Hyl).
    apply Exists_exists. exists y. split; [now apply list_elem_of_In | exact Hy]. }
  split; [|split; [exact Hm|]].
  - constructor; [exact Hx|]. apply Forall_forall. intros y Hy.
    rewrite Forall_forall in Hall. apply Hall.
    apply list_elem_of_In, in_map, list_elem_of_In, Hy.
  - apply Exists_exists in Hm as (y & Hy & <-).
    rewrite Forall_forall in Hrange. specialize (Hrange y Hy). lia.
Qed.

(** The quotients by that peak, in float64. *)
Lemma true_divide_in_unit_interval (a : list Z) (m : Z) :
  Forall (fun x => -32767 <= x <= 32767) a ->
  Np.max_int16 (Np.abs_int16 a) = Returns m ->
  m <> 0 ->
  Forall (fun v => (-1 <=? v)%float = true /\ (v <=? 1)%float = true)
         (Np.true_divide a m) /\
  Exists (fun v => abs v = 1%float) (Np.true_divide a m).
Proof.
  intros Hrange Hpeak Hnz.
  destruct (peak_is_largest_magnitude a m Hrange Hpeak) as (Hall & Hex & Hm).
  assert (Hm53 : 0 < m < two53) by (unfold two53; lia).
  unfold Np.true_divide. split.
  - apply Forall_fmap. eapply Forall_impl; [exact Hall|].
    intros x Hx. unfold compose. cbv beta in Hx |- *.
    apply Z2f_div_in_unit_interval; [exact Hm53 | lia].
  - apply Exists_fmap. eapply Exists_impl; [exact Hex|].
    intros x Hx. unfold compose. cbv beta in Hx |- *.
    destruct (Z2f_div_self m Hm53) as [Hp Hn].
    destruct (Z.abs_eq_or_opp x) as [E|E]; rewrite E in Hx.
    + rewrite Hx, Hp. reflexivity.
    + replace x with (- m) by lia. rewrite Hn. reflexivity.
Qed.

(** X3: on a file with no sample equal to -32768 and some sample other than
    0, a load that runs to its end leaves normalised samples that all lie in
    [-1, 1], one of them of magnitude exactly 1.0. *)
Theorem load_audio_normalized_in_unit_interval (s s' : state) (w : Wave.wav) :
  fs (world s) !! wav_file_name (self s) = Some (WavFile w) ->
  load_audio_try s = (s', Returns tt) ->
  Forall (fun x => x <> -32768) (Np.decode_le16 (Wave.data w)) ->
  Exists (fun x => x <> 0) (Np.decode_le16 (Wave.data w)) ->
  exists d : list float,
    audio_data (self s') = Some (Np.Float64Array d) /\
    length d = length (Np.decode_le16 (Wave.data w)) /\
    Forall (fun v => (-1 <=? v)%float = true /\ (v <=? 1)%float = true) d /\
    Exists (fun v => abs v = 1%float) d.
Proof.
  intros Hf H Hmin Hnz.
  apply load_audio_try_returns in H as (w' & raw & peak & Hf' & Hraw & Hpeak & _ & ->).
  rewrite Hf in Hf'. injection Hf' as <-.
  unfold Np.frombuffer_int16 in Hraw.
  destruct (Nat.even _); [|discriminate]. injection Hraw as <-.
  set (raw := Np.decode_le16 (Wave.data w)) in *.
  assert (Hrange : Forall (fun x => -32767 <= x <= 32767) raw).
  { pose proof (decode_le16_is_int16 (Wave.data w)) as Hint. fold raw in Hint.
    rewrite Forall_forall in Hint, Hmin |- *. intros x Hx.
    specialize (Hint x Hx). specialize (Hmin x Hx).
    unfold Np.is_int16, Np.int16_min, Np.int16_max in Hint. lia. }
  assert (Hp : peak <> 0).
  { destruct (peak_is_largest_magnitude raw peak Hrange Hpeak) as (Hall & _ & _).
    apply Exists_exists in Hnz as (x & Hx & Hx0).
    rewrite Forall_forall in Hall. specialize (Hall x Hx). lia. }
  destruct (true_divide_in_unit_interval raw peak Hrange Hpeak Hp) as [Hin Hone].
  eexists. cbn [self audio_data]. split; [reflexivity|].
  split; [unfold Np.true_divide; apply length_map|]. split; assumption.
Qed.

(** The samples 1, -2, 3, -4 become 0.25, -0.5, 0.75, -1.0. *)
Lemma load_audio_normalized_in_unit_interval_witness :
  exists d : list float,
    Some (Np.Float64Array [(0.25)%float; (-0.5)%float; (0.75)%float; (-1)%float])
      = Some (Np.Float64Array d) /\
    Forall (fun v => (-1 <=? v)%float = true /\ (v <=? 1)%float = true) d.
Proof.
  destruct (load_audio_normalized_in_unit_interval
    (State (world_with (Some (WavFile (mono16 8000 [1; -2; 3; -4])))) fresh)
    (State (world_with (Some (WavFile (mono16 8000 [1; -2; 3; -4]))))
       (mkApp [] "u.wav"
          (Some (Np.Float64Array
                   [(0.25)%float; (-0.5)%float; (0.75)%float; (-1)%float]))
          (Some 8000)
          (Some (Np.linspace 0 (Np.Z2f 4 / Np.Z2f 8000) 4))
          (Mpl.subplots (10, 4))))
    (mono16 8000 [1; -2; 3; -4])
    eq_refl
    ltac:(vm_compute; reflexivity))
    as (d & Hd & _ & Hin & _).
  - vm_compute. repeat constructor; discriminate.
  - vm_compute. left. discriminate.
  - exists d. split; [exact Hd | exact Hin].
Defined.

(** C1: the file with the two samples -32768 and 100 is loaded without an
    error or a printed line.  [np.abs] leaves -32768 as it is, the peak found
    is 100, and the first normalised sample is -327.68, far below -1. *)
Theorem load_audio_int16_min_leaves_unit_interval :
  let s := State (world_with (Some (WavFile (mono16 8000 [-32768; 100])))) fresh in
  Np.abs_int16 [-32768; 100] = [-32768; 100] /\
  load_audio s =
    (State (world s)
       (mkApp [] "u.wav"
          (Some (Np.Float64Array [(-0x1.47ae147ae147bp+8)%float; 1%float]))
          (Some 8000)
          (Some [0%float; (0x1.0624dd2f1a9fcp-12)%float])
          (Mpl.subplots (10, 4))),
     Returns tt) /\
  ((-0x1.47ae147ae147bp+8) <? -1)%float = true.
Proof.
  cbv zeta. split; [reflexivity|]. split; [|reflexivity].
  vm_compute. reflexivity.
Qed.

(** ** A missing file *)

(** C2, as stated, fails with no file at all: the path names nothing, yet
    [load_audio] returns normally, and [__init__] goes on to [plot_audio],
    whose call of [Axes.plot] is in the trace. *)
Lemma missing_file_reaches_plot_audio :
  let w := world_with None in
  fs w !! wav_file_name fresh = None /\
  snd (load_audio (State w fresh)) = Returns tt /\
  AxPlot None None "b" ∈ trace (world (fst (__init__ w))).
Proof.
  cbv zeta. split; [reflexivity|]. split; [reflexivity|].
  vm_compute. apply list_elem_of_In. right. left. reflexivity.
Qed.

(** C2, amended: on a path that names no file [load_audio] raises nothing to
    its caller; it catches the FileNotFoundError, prints one line and leaves
    the object, with [audio_data], [sampling_rate] and [time], as it was. *)
Theorem load_audio_missing_file_logged (s : state) :
  fs (world s) !! wav_file_name (self s) = None ->
  load_audio s =
    (State (mkWorld (fs (world s)) (os (world s)) (playable (world s)) (write_error (world s))
              (trace (world s) ++
               [Print ("Error loading audio: [Errno 2] No such file or directory: '"
                       +:+ wav_file_name (self s) +:+ "'")]))
           (self s),
     Returns tt).
Proof.
  intros Hs. unfold load_audio, try_except, load_audio_try, wave_open.
  py_unfold. cbn. rewrite Hs. reflexivity.
Qed.

Lemma load_audio_missing_file_logged_witness :
  load_audio (State (world_with None) fresh) =
    (State (mkWorld ∅ Windows (fun _ => true) (fun _ _ => None)
              [Print "Error loading audio: [Errno 2] No such file or directory: 'u.wav'"])
           fresh,
     Returns tt).
Proof.
  apply (load_audio_missing_file_logged (State (world_with None) fresh)).
  reflexivity.
Defined.

(** ** The time axis *)

(** C3, as stated, fails on the spec's own fixture (one second at 8000 Hz,
    every sample 16000): the axis ends at 1.0, the whole duration, not at
    7999/8000. *)
Lemma time_axis_last_is_not_exclusive :
  let n := Z.to_nat 8000 in
  let w := mono16 8000 (repeat 16000 n) in
  let s' := fst (load_audio (State (world_with (Some (WavFile w))) fresh)) in
  audio_data (self s') = Some (Np.Float64Array (repeat 1%float n)) /\
  (time (self s') ≫= last) = Some 1%float /\
  spec_last_time 8000 8000 = (0x1.ffef9db22d0e5p-1)%float /\
  (spec_last_time 8000 8000 <? 1)%float = true.
Proof.
  cbv zeta. vm_compute. repeat split; reflexivity.
Qed.

(** C3, amended: after a load that ran to its end on [n] samples at rate
    [rate], the time axis is [np.linspace(0, n/rate, num=n)] with the end
    point included.  It has [n] points; with [n >= 2] the last one is [n/rate]
    itself; and for a rate and a length below 2^53 (a WAV header holds 32-bit
    fields) it starts at 0 and the points before the last are the multiples
    [i × step] of [step = (n/rate) / (n-1)]. *)
Theorem time_axis_endpoint_inclusive (s s' : state) :
  load_audio_try s = (s', Returns tt) ->
  exists (d t : list float) (rate : Z),
    audio_data (self s') = Some (Np.Float64Array d) /\
    sampling_rate (self s') = Some rate /\
    time (self s') = Some t /\
    let n := length d in
    let stop := (Np.Z2f (Z.of_nat n) / Np.Z2f rate)%float in
    let step := ((stop - 0) / Np.Z2f (Z.of_nat n - 1))%float in
    t = Np.linspace 0 stop n /\
    length t = n /\
    ((2 <= n)%nat -> last t = Some stop) /\
    (0 < rate < two53 -> Z.of_nat n < two53 ->
     t !! 0%nat = Some 0%float /\
     (forall i, (i < n - 1)%nat ->
                t !! i = Some (Np.Z2f (Z.of_nat i) * step + 0)%float)).
Proof.
  intros H. apply load_audio_try_returns in H
    as (w & raw & peak & _ & _ & Hpeak & _ & ->).
  assert (Hn : (1 <= length raw)%nat).
  { destruct raw; [discriminate Hpeak | cbn; lia]. }
  eexists _, _, _. cbn [self audio_data sampling_rate time].
  split; [reflexivity|]. split; [reflexivity|]. split; [reflexivity|].
  unfold Np.true_divide. rewrite length_map. cbv zeta.
  split; [reflexivity|]. split; [apply linspace_length|].
  split; [apply linspace_last|].
  intros Hrate Hlen.
  destruct (linspace_time_axis_start (length raw) (Wave.framerate w) Hn Hlen Hrate)
    as [Hstart Hstep].
  split; [exact Hstart|].
  intros i Hi. apply linspace_lookup; [lia | lia |]. apply Hstep. lia.
Qed.

(** Four samples at 8000 Hz: the axis is 0, 1/6000, 2/6000, 4/8000. *)
Lemma time_axis_endpoint_inclusive_witness :
  exists (d t : list float) (rate : Z),
    audio_data (self (State (world_with (Some (WavFile (mono16 8000 [1; -2; 3; -4]))))
       (mkApp [] "u.wav"
          (Some (Np.Float64Array (Np.true_divide [1; -2; 3; -4] 4)))
          (Some 8000)
          (Some (Np.linspace 0 (Np.Z2f 4 / Np.Z2f 8000) 4))
          (Mpl.subplots (10, 4))))) = Some (Np.Float64Array d) /\
    rate = 8000 /\
    t = [0%float; (0x1.5d867c3ece2a5p-13)%float; (0x1.5d867c3ece2a5p-12)%float;
         (0x1.0624dd2f1a9fcp-11)%float] /\
    last t = Some (Np.Z2f 4 / Np.Z2f 8000)%float.
Proof.
  destruct (time_axis_endpoint_inclusive
              (State (world_with (Some (WavFile (mono16 8000 [1; -2; 3; -4])))) fresh)
              (State (world_with (Some (WavFile (mono16 8000 [1; -2; 3; -4]))))
                 (mkApp [] "u.wav"
                    (Some (Np.Float64Array (Np.true_divide [1; -2; 3; -4] 4)))
                    (Some 8000)
                    (Some (Np.linspace 0 (Np.Z2f 4 / Np.Z2f 8000) 4))
                    (Mpl.subplots (10, 4))))
              ltac:(vm_compute; reflexivity))
    as (d & t & rate & Hd & Hrate & Ht & Hlin & Hlen & Hlast & _).
  exists d, t, rate. split; [exact Hd|].
  cbn [self sampling_rate time] in Hrate, Ht.
  injection Hrate as <-. injection Ht as <-. injection Hd as <-.
  split; [reflexivity|]. split; [vm_compute; reflexivity|].
  vm_compute. reflexivity.
Defined.

(** C4: whenever the body of [load_audio] runs to its end, [load_audio]
    returns that state, and in it the time axis and the sample sequence have
    the same length. *)
Theorem time_axis_matches_samples (s s' : state) :
  load_audio_try s = (s', Returns tt) ->
  load_audio s = (s', Returns tt) /\
  exists (d t : list float),
    audio_data (self s') = Some (Np.Float64Array d) /\
    time (self s') = Some t /\
    length t = length d.
Proof.
  intros H. split; [now apply load_audio_ok|].
  apply load_audio_try_returns in H as (w & raw & peak & _ & _ & _ & _ & ->).
  eexists _, _. cbn [self audio_data time].
  split; [reflexivity|]. split; [reflexivity|].
  unfold Np.true_divide. now rewrite linspace_length, length_map.
Qed.

Lemma time_axis_matches_samples_witness :
  exists (d t : list float),
    Some (Np.Float64Array [(0.25)%float; (-0.5)%float; (0.75)%float; (-1)%float])
      = Some (Np.Float64Array d) /\
    Some (Np.linspace 0 (Np.Z2f 4 / Np.Z2f 8000) 4) = Some t /\
    length t = length d.
Proof.
  exact (proj2 (time_axis_matches_samples
    (State (world_with (Some (WavFile (mono16 8000 [1; -2; 3; -4])))) fresh)
    (State (world_with (Some (WavFile (mono16 8000 [1; -2; 3; -4]))))
       (mkApp [] "u.wav"
          (Some (Np.Float64Array
                   [(0.25)%float; (-0.5)%float; (0.75)%float; (-1)%float]))
          (Some 8000)
          (Some (Np.linspace 0 (Np.Z2f 4 / Np.Z2f 8000) 4))
          (Mpl.subplots (10, 4))))
    ltac:(vm_compute; reflexivity))).
Defined.

(** ** Reading the frames *)

(** C8, as stated, fails on a readable PCM file of three 8-bit frames:
    [wave.open] accepts it and [readframes(-1)] hands over its three bytes,
    which are no whole number of int16 samples; [np.frombuffer] raises, no
    sample is interpreted and nothing is normalised. *)
Lemma load_audio_odd_chunk_reads_no_sample :
  let w := Wave.Wav 1 1 8000 [x80; x81; x7f] in
  let s := State (world_with (Some (WavFile w))) fresh in
  wave_open "u.wav" s = (s, Returns w) /\
  Wave.readframes w (-1) = [x80; x81; x7f] /\
  Np.frombuffer_int16 (Wave.readframes w (-1)) =
    Raises (ValueError "buffer size must be a multiple of element size") /\
  load_audio s =
    (State (mkWorld {[ "u.wav" := WavFile w ]} Windows (fun _ => true)
              (fun _ _ => None)
              [Print "Error loading audio: buffer size must be a multiple of element size"])
           (mkApp [] "u.wav" None (Some 8000) None (Mpl.subplots (10, 4))),
     Returns tt).
Proof. cbv zeta. repeat split. Qed.

(** C8, amended: on a readable file whose data chunk has an even number of
    bytes, [readframes(-1)] hands over the whole chunk and [np.frombuffer]
    turns every pair of bytes into the signed little-endian int16 it spells:
    no byte is dropped (encoding the samples again gives the chunk back), and
    these are the values that are then normalised. *)
Theorem load_audio_reads_every_frame_as_int16 (s : state) (w : Wave.wav) :
  fs (world s) !! wav_file_name (self s) = Some (WavFile w) ->
  Nat.even (length (Wave.data w)) = true ->
  exists raw : list Z,
    Wave.readframes w (-1) = Wave.data w /\
    Np.frombuffer_int16 (Wave.readframes w (-1)) = Returns raw /\
    (2 * length raw)%nat = length (Wave.data w) /\
    Forall Np.is_int16 raw /\
    (forall i lo hi,
        Wave.data w !! (2 * i)%nat = Some lo ->
        Wave.data w !! (2 * i + 1)%nat = Some hi ->
        raw !! i = Some (Np.wrap16 (Np.byte_val lo + 256 * Np.byte_val hi))) /\
    concat (map encode16 raw) = Wave.data w /\
    audio_data (self (fst (load_audio s))) =
      match Np.max_int16 (Np.abs_int16 raw) with
      | Returns peak => Some (Np.Float64Array (Np.true_divide raw peak))
      | Raises _ => Some (Np.Int16Array raw)
      end.
Proof.
  intros Hf He. exists (Np.decode_le16 (Wave.data w)).
  assert (Hraw : Np.frombuffer_int16 (Wave.data w)
                 = Returns (Np.decode_le16 (Wave.data w)))
    by (unfold Np.frombuffer_int16; now rewrite He).
  split; [reflexivity|]. split; [exact Hraw|].
  split; [now apply decode_le16_length|].
  split; [apply decode_le16_is_int16|].
  split; [intros i lo hi; apply decode_le16_lookup|].
  split; [now apply encode_decode_le16|].
  destruct (Np.max_int16 _) as [peak|e] eqn:Hpeak.
  - now apply (load_audio_audio_data s w).
  - unfold load_audio, try_except, load_audio_try, wave_open, Wave.readframes.
    py_unfold. cbn. rewrite Hf, Hraw. cbn. rewrite Hpeak. cbn.
    destruct (is_Exception e); reflexivity.
Qed.

(** The bytes 00 80 64 00 ff ff are the samples -32768, 100 and -1. *)
Lemma load_audio_reads_every_frame_as_int16_witness :
  exists raw : list Z,
    raw = [-32768; 100; -1] /\
    Np.frombuffer_int16 [x00; x80; x64; x00; xff; xff] = Returns raw.
Proof.
  destruct (load_audio_reads_every_frame_as_int16
              (State (world_with
                        (Some (WavFile (Wave.Wav 1 2 8000
                                          [x00; x80; x64; x00; xff; xff]))))
                     fresh)
              (Wave.Wav 1 2 8000 [x00; x80; x64; x00; xff; xff])
              eq_refl eq_refl)
    as (raw & _ & Hraw & _).
  exists raw. split; [|exact Hraw].
  vm_compute in Hraw. now injection Hraw as <-.
Defined.

(** ** Several channels *)

Section Interleaved.
Variable c : nat.

Lemma concat_uniform_length (frames : list (list Z)) :
  Forall (fun fr => length fr = c) frames ->
  length (concat frames) = (length frames * c)%nat.
Proof.
  induction 1 as [|fr l Hfr _ IH]; cbn; [reflexivity|].
  rewrite length_app, IH, Hfr. reflexivity.
Qed.

(** Sample [j] of frame [i] sits at position [i × c + j] of the flat
    sequence. *)
Lemma concat_uniform_lookup (frames : list (list Z)) (i j : nat) fr x :
  Forall (fun fr => length fr = c) frames ->
  frames !! i = Some fr -> fr !! j = Some x ->
  concat frames !! (i * c + j)%nat = Some x.
Proof.
  intros Hall. revert i. induction Hall as [|fr0 l Hfr0 _ IH]; intros i Hi Hj.
  - discriminate.
  - destruct i as [|i]; cbn in Hi |- *.
    + injection Hi as ->. now apply lookup_app_l_Some.
    + rewrite lookup_app_r by lia.
      replace (c + i * c + j - length fr0)%nat with (i * c + j)%nat by lia.
      now apply IH.
Qed.
End Interleaved.

Lemma max_int16_nonempty (a : list Z) :
  a <> [] -> exists m, Np.max_int16 a = Returns m.
Proof. destruct a; [congruence|]. intros _. cbn. eauto. Qed.

(** C10: a file of [f >= 1] frames of [c >= 2] int16 samples each loads as one
    flat sequence of [f × c] values, frame after frame with the channels of a
    frame side by side (each divided by the one peak), and the time axis has
    [f × c] points that end at [(f × c) / rate] (and start at 0, for a rate
    and a length below 2^53). *)
Theorem load_audio_multichannel_flat (s : state) (w : Wave.wav)
    (frames : list (list Z)) (c : nat) :
  fs (world s) !! wav_file_name (self s) = Some (WavFile w) ->
  Wave.nchannels w = Z.of_nat c ->
  Wave.data w = encode_frames frames ->
  Forall (fun fr => length fr = c) frames ->
  Forall (Forall Np.is_int16) frames ->
  (1 <= length frames)%nat -> (2 <= c)%nat ->
  Wave.framerate w <> 0 ->
  let n := (length frames * c)%nat in
  let stop := (Np.Z2f (Z.of_nat n) / Np.Z2f (Wave.framerate w))%float in
  exists s' peak,
    load_audio s = (s', Returns tt) /\
    audio_data (self s') =
      Some (Np.Float64Array (Np.true_divide (concat frames) peak)) /\
    length (Np.true_divide (concat frames) peak) = n /\
    (forall i j fr x,
        frames !! i = Some fr -> fr !! j = Some x ->
        Np.true_divide (concat frames) peak !! (i * c + j)%nat
        = Some (Np.Z2f x / Np.Z2f peak)%float) /\
    time (self s') = Some (Np.linspace 0 stop n) /\
    length (Np.linspace 0 stop n) = n /\
    last (Np.linspace 0 stop n) = Some stop /\
    (0 < Wave.framerate w < two53 -> Z.of_nat n < two53 ->
     Np.linspace 0 stop n !! 0%nat = Some 0%float).
Proof.
  intros Hf Hc Hd Hlen Hrange Hfr Hch Hrate n stop.
  assert (Hn : length (concat frames) = n) by now apply concat_uniform_length.
  assert (Hraw : Np.frombuffer_int16 (Wave.data w) = Returns (concat frames)).
  { rewrite Hd, encode_frames_flat. apply frombuffer_encoded.
    now apply Forall_concat. }
  destruct (max_int16_nonempty (Np.abs_int16 (concat frames))) as [peak Hpeak].
  { intros E. apply (f_equal length) in E.
    unfold Np.abs_int16 in E. rewrite length_map, Hn in E. cbn in E. nia. }
  eexists _, peak. split.
  { apply load_audio_ok, load_audio_try_returns.
    exists w, (concat frames), peak. eauto 10. }
  cbn [self audio_data time]. rewrite Hn. fold stop.
  split; [reflexivity|]. split.
  { unfold Np.true_divide. now rewrite length_map. }
  split.
  { intros i j fr x Hi Hj. unfold Np.true_divide.
    rewrite list_lookup_fmap, (concat_uniform_lookup c frames i j fr x); auto. }
  split; [reflexivity|]. split; [apply linspace_length|].
  split; [apply linspace_last; nia|].
  intros Hr Hlt. apply linspace_time_axis_start; [nia | exact Hlt | exact Hr].
Qed.

(** Two stereo frames, (100, -100) and (50, -25), at 8000 Hz: four values,
    an axis that ends at 4/8000. *)
Lemma load_audio_multichannel_flat_witness :
  exists s' peak,
    load_audio (State (world_with (Some (WavFile
        (Wave.Wav 2 2 8000 (encode_frames [[100; -100]; [50; -25]]))))) fresh)
    = (s', Returns tt) /\
    audio_data (self s') =
      Some (Np.Float64Array (Np.true_divide [100; -100; 50; -25] peak)) /\
    time (self s') = Some (Np.linspace 0 (Np.Z2f 4 / Np.Z2f 8000) 4).
Proof.
  destruct (load_audio_multichannel_flat
              (State (world_with (Some (WavFile
                 (Wave.Wav 2 2 8000 (encode_frames [[100; -100]; [50; -25]])))))
                 fresh)
              (Wave.Wav 2 2 8000 (encode_frames [[100; -100]; [50; -25]]))
              [[100; -100]; [50; -25]] 2%nat)
    as (s' & peak & Hload & Hdata & _ & _ & Htime & _).
  - reflexivity.
  - reflexivity.
  - reflexivity.
  - repeat constructor.
  - unfold Np.is_int16, Np.int16_min, Np.int16_max. repeat constructor; lia.
  - cbn. lia.
  - lia.
  - cbn. lia.
  - exists s', peak. split; [exact Hload|]. split; [exact Hdata|exact Htime].
Defined.

(** ** The two buttons *)

(** [savefig], on each of the three ways it can go. *)
Lemma savefig_result (fname : string) (s : state) :
  let w := world s in
  let format := savefig_format (os w) fname in
  let filename := savefig_filename (os w) fname in
  let called := (trace w ++ [Savefig fname])%list in
  savefig fname s =
    if Mpl.is_supported format then
      match write_error w format filename with
      | Some e =>
          (State (mkWorld (fs w) (os w) (playable w) (write_error w) called) (self s),
           Raises e)
      | None =>
          (State (mkWorld (<[filename := Image format (fig (self s))]> (fs w))
                    (os w) (playable w) (write_error w) called)
                 (self s),
           Returns tt)
      end
    else
      (State (mkWorld (fs w) (os w) (playable w) (write_error w) called) (self s),
       Raises (ValueError (Mpl.format_not_supported format))).
Proof.
  cbv zeta. unfold savefig. py_unfold. cbn [world self os fs playable write_error trace].
  generalize (savefig_format (os (world s)) fname) as format.
  generalize (savefig_filename (os (world s)) fname) as filename.
  intros filename format.
  destruct (Mpl.is_supported format);
    cbn [world self os fs playable write_error trace]; [|reflexivity].
  destruct (write_error (world s) format filename); reflexivity.
Qed.




(** [reproducir_audio] on every platform and every answer of the OS. *)
Lemma reproducir_audio_result (s : state) :
  reproducir_audio s =
    (State (mkWorld (fs (world s)) (os (world s)) (playable (world s)) (write_error (world s))
              (trace (world s) ++
               match os (world s) with
               | Windows =>
                   PlaySound (wav_file_name (self s)) SND_FILENAME ::
                   (if playable (world s) (wav_file_name (self s)) then []
                    else [Print "Error reproduciendo audio: Failed to play sound"])
               | _ => [Print "Error reproduciendo audio: name 'winsound' is not defined"]
               end))
           (self s),
     Returns tt).
Proof.
  unfold reproducir_audio, try_except, winsound_PlaySound. py_unfold. cbn.
  destruct (os (world s)) eqn:Hos; cbn; rewrite ?Hos; try reflexivity.
  destruct (playable (world s) (wav_file_name (self s))); cbn; rewrite ?Hos;
    [reflexivity | now rewrite <- app_assoc].
Qed.

(** C6: the playback command hands [winsound.PlaySound] the file name the
    object was built with and nothing of the loaded buffer, and it always
    returns: a sound the OS cannot play and the unbound [winsound] off Windows
    both end as one printed line. *)
Theorem reproducir_audio_plays_file_never_raises (s : state) :
  let w := world s in
  let name := wav_file_name (self s) in
  let after :=
    State (mkWorld (fs w) (os w) (playable w) (write_error w)
             (trace w ++
              match os w with
              | Windows =>
                  PlaySound name SND_FILENAME ::
                  (if playable w name then []
                   else [Print "Error reproduciendo audio: Failed to play sound"])
              | _ => [Print "Error reproduciendo audio: name 'winsound' is not defined"]
              end))
          (self s) in
  reproducir_audio s = (after, Returns tt) /\
  forall d r t,
    world (fst (reproducir_audio
      (State w (mkApp (widgets (self s)) name d r t (fig (self s))))))
    = world after.
Proof.
  cbv zeta. split; [apply reproducir_audio_result|].
  intros d r t. now rewrite reproducir_audio_result.
Qed.

(** ** The plot *)

(** C7, as stated, fails on a two-sample buffer: the plot succeeds, and its
    labels and title are the Spanish ones, not the English ones of the claim. *)
Lemma plot_audio_labels_not_english :
  let s := State (world_with None)
             (mkApp [] "u.wav" (Some (Np.Float64Array [1%float; (-1)%float]))
                (Some 8000) (Some [0%float; (0x1.0624dd2f1a9fcp-12)%float])
                (Mpl.subplots (10, 4))) in
  let f := fig (self (fst (plot_audio s))) in
  snd (plot_audio s) = Returns tt /\
  Mpl.xlabel f <> "Time [s]" /\
  Mpl.ylabel f <> "Amplitude" /\
  Mpl.title f <> "Sound Wave".
Proof.
  cbv zeta. repeat split; try reflexivity; vm_compute; discriminate.
Qed.

(** [plot_audio] on a buffer: one call of [Axes.plot], then the figure with
    the new line, the three texts and the grid toggled. *)
Lemma plot_audio_on_buffer (w : World) (a : AudioApp) (t d : list float) :
  time a = Some t ->
  audio_data a = Some (Np.Float64Array d) ->
  length t = length d ->
  plot_audio (State w a) =
    (State (mkWorld (fs w) (os w) (playable w) (write_error w)
              (trace w ++ [AxPlot (Some t) (Some (Np.Float64Array d)) "b"]))
           (mkApp (widgets a) (wav_file_name a) (audio_data a) (sampling_rate a)
              (time a)
              (Mpl.Figure (Mpl.figsize (fig a))
                 (Mpl.lines (fig a) ++ [Mpl.Line2D t d "b"])
                 "Tiempo [s]" "Amplitud" "Onda Sonora" (negb (Mpl.grid_on (fig a))))),
     Returns tt).
Proof.
  destruct a as [wd name ad sr tm fg]. cbn [time audio_data fig].
  intros -> -> Hlen.
  unfold plot_audio, ax_plot. py_unfold. cbn.
  rewrite Hlen, Nat.eqb_refl. reflexivity.
Qed.

(** C7, amended: for every buffer (a time axis and as many normalised
    samples) [plot_audio] adds one blue line of amplitude against time and
    sets the x label "Tiempo [s]", the y label "Amplitud" and the title
    "Onda Sonora"; it toggles the grid, which shows on a figure that had none,
    as the one [__init__] creates. *)
Theorem plot_audio_draws_labelled_line (w : World) (a : AudioApp) (t d : list float) :
  time a = Some t ->
  audio_data a = Some (Np.Float64Array d) ->
  length t = length d ->
  exists f',
    plot_audio (State w a) =
      (State (mkWorld (fs w) (os w) (playable w) (write_error w)
                (trace w ++ [AxPlot (Some t) (Some (Np.Float64Array d)) "b"]))
             (mkApp (widgets a) (wav_file_name a) (audio_data a) (sampling_rate a)
                (time a) f'),
       Returns tt) /\
    Mpl.lines f' = (Mpl.lines (fig a) ++ [Mpl.Line2D t d "b"])%list /\
    Mpl.xlabel f' = "Tiempo [s]" /\
    Mpl.ylabel f' = "Amplitud" /\
    Mpl.title f' = "Onda Sonora" /\
    Mpl.grid_on f' = negb (Mpl.grid_on (fig a)) /\
    (fig a = Mpl.subplots (10, 4) ->
     f' = Mpl.Figure (10, 4) [Mpl.Line2D t d "b"]
            "Tiempo [s]" "Amplitud" "Onda Sonora" true).
Proof.
  intros Ht Hd Hlen. eexists. split; [now apply plot_audio_on_buffer|].
  cbn. repeat split; try reflexivity. now intros ->.
Qed.

Lemma plot_audio_draws_labelled_line_witness :
  exists f',
    fig (self (fst (plot_audio
      (State (world_with None)
         (mkApp [] "u.wav" (Some (Np.Float64Array [1%float; (-1)%float]))
            (Some 8000) (Some [0%float; (0x1.0624dd2f1a9fcp-12)%float])
            (Mpl.subplots (10, 4))))))) = f' /\
    f' = Mpl.Figure (10, 4)
           [Mpl.Line2D [0%float; (0x1.0624dd2f1a9fcp-12)%float]
              [1%float; (-1)%float] "b"]
           "Tiempo [s]" "Amplitud" "Onda Sonora" true.
Proof.
  destruct (plot_audio_draws_labelled_line (world_with None)
              (mkApp [] "u.wav" (Some (Np.Float64Array [1%float; (-1)%float]))
                 (Some 8000) (Some [0%float; (0x1.0624dd2f1a9fcp-12)%float])
                 (Mpl.subplots (10, 4)))
              [0%float; (0x1.0624dd2f1a9fcp-12)%float] [1%float; (-1)%float]
              eq_refl eq_refl eq_refl)
    as (f' & Hplot & _ & _ & _ & _ & _ & Hfresh).
  exists f'. split.
  - rewrite Hplot. reflexivity.
  - apply Hfresh. reflexivity.
Defined.

(** ** The whole program *)

(** [guardar_imagen_completa] for an answer the dialog gives: what
    [savefig] does, then the printed line if it returned. *)
Lemma guardar_imagen_completa_result (a : Ascii.ascii) (p : string) (s : state) :
  let path := String a p in
  let w := world s in
  let format := savefig_format (os w) path in
  let filename := savefig_filename (os w) path in
  guardar_imagen_completa path s =
    if Mpl.is_supported format then
      match write_error w format filename with
      | Some e =>
          (State (mkWorld (fs w) (os w) (playable w) (write_error w)
                    (trace w ++ [Savefig path]))
                 (self s),
           Raises e)
      | None =>
          (State (mkWorld (<[filename := Image format (fig (self s))]> (fs w))
                    (os w) (playable w) (write_error w)
                    (trace w ++ [Savefig path; Print ("Imagen guardada: " +:+ path)]))
                 (self s),
           Returns tt)
      end
    else
      (State (mkWorld (fs w) (os w) (playable w) (write_error w)
                (trace w ++ [Savefig path]))
             (self s),
       Raises (ValueError (Mpl.format_not_supported format))).
Proof.
  intros path w format filename.
  assert (Hg : guardar_imagen_completa path s =
               (savefig path;; print ("Imagen guardada: " +:+ path)) s) by reflexivity.
  rewrite Hg. unfold mbind, py_bind, bind. rewrite savefig_result. cbv zeta.
  fold w. fold format. fold filename.
  destruct (Mpl.is_supported format); [|reflexivity].
  destruct (write_error w format filename); [reflexivity|].
  unfold print, emit. cbn. now rewrite <- app_assoc.
Qed.

(** Every callback goes back to the event loop, through Tk's wrapper when it
    raised, and leaves the object alone. *)
Lemma click_keeps_self (c : command) (dialog : string) (s : state) :
  exists w', tk_call (click c dialog) s = (State w' (self s), Returns tt).
Proof.
  unfold tk_call. destruct c; cbn [click].
  - destruct dialog as [|a p]; [now exists (world s); destruct s|].
    rewrite guardar_imagen_completa_result. cbv zeta.
    destruct (Mpl.is_supported _); [|unfold print, emit; cbn; eauto].
    destruct (write_error _ _ _); [unfold print, emit; cbn; eauto | eauto].
  - rewrite reproducir_audio_result. eauto.
Qed.

(** X2: the shell is a one-state machine: whatever the user clicks, and
    whatever the save dialog answers, the event loop ends normally with the
    loaded buffer, the figure and the widgets as [__init__] left them. *)
Theorem run_returns_self_unchanged (clicks : list (command * string)) (s : state) :
  exists w', run clicks s = (State w' (self s), Returns tt).
Proof.
  unfold run. revert s. induction clicks as [|[c dialog] rest IH]; intros s.
  - exists (world s). now destruct s.
  - cbn [mainloop]. unfold mbind, py_bind, bind.
    destruct (click_keeps_self c dialog s) as [w1 ->].
    destruct (IH (State w1 (self s))) as [w2 ->]. eauto.
Qed.

(** X1: on a file that loads, [__init__] returns normally: the buffer is
    drawn once on the fresh figure, with the labels, title and grid, and the
    canvas and the two buttons are packed in this order. *)
Theorem init_loads_plots_builds_widgets (w : World) (s1 : state) :
  load_audio_try (State w fresh) = (s1, Returns tt) ->
  exists (d t : list float),
    audio_data (self s1) = Some (Np.Float64Array d) /\
    time (self s1) = Some t /\
    __init__ w =
      (State (mkWorld (fs w) (os w) (playable w) (write_error w)
                (trace w ++ [AxPlot (Some t) (Some (Np.Float64Array d)) "b"]))
             (mkApp [Canvas;
                     Button "Guardar Imagen Completa" GuardarImagenCompleta;
                     Button "Reproducir Audio" ReproducirAudio]
                "u.wav" (Some (Np.Float64Array d)) (sampling_rate (self s1)) (Some t)
                (Mpl.Figure (10, 4) [Mpl.Line2D t d "b"]
                   "Tiempo [s]" "Amplitud" "Onda Sonora" true)),
       Returns tt).
Proof.
  intros H. unfold __init__. unfold mbind at 1, py_bind, bind.
  rewrite (load_audio_ok _ _ H).
  apply load_audio_try_returns in H as (f & raw & peak & _ & _ & _ & _ & ->).
  eexists _, _. split; [reflexivity|]. split; [reflexivity|].
  unfold mbind, py_bind, bind.
  erewrite plot_audio_on_buffer; [reflexivity | reflexivity | reflexivity |].
  unfold Np.true_divide. now rewrite linspace_length, length_map.
Qed.

Lemma init_loads_plots_builds_widgets_witness :
  snd (__init__ (world_with (Some (WavFile (mono16 8000 [1; -2; 3; -4]))))) = Returns tt.
Proof.
  destruct (init_loads_plots_builds_widgets
              (world_with (Some (WavFile (mono16 8000 [1; -2; 3; -4]))))
              (State (world_with (Some (WavFile (mono16 8000 [1; -2; 3; -4]))))
                 (mkApp [] "u.wav"
                    (Some (Np.Float64Array (Np.true_divide [1; -2; 3; -4] 4)))
                    (Some 8000)
                    (Some (Np.linspace 0 (Np.Z2f 4 / Np.Z2f 8000) 4))
                    (Mpl.subplots (10, 4))))
              ltac:(vm_compute; reflexivity))
    as (d & t & _ & _ & ->).
  reflexivity.
Defined.

(** * More of the program *)

(** ** Every way [load_audio] can end *)

(** The body of the [try], path by path: what it has assigned when it stops
    and what it raises. *)
Lemma load_audio_try_eval (s : state) :
  load_audio_try s =
    match fs (world s) !! wav_file_name (self s) with
    | None =>
        (s, Raises (FileNotFoundError
                      ("[Errno 2] No such file or directory: '"
                       +:+ wav_file_name (self s) +:+ "'")))
    | Some (NotWav why) => (s, Raises (WaveError why))
    | Some Truncated => (s, Raises (EOFError ""))
    | Some (Image format _) => (s, Raises (WaveError (Wave.not_wave format)))
    | Some (WavFile w) =>
        let a1 := set_sampling_rate (Wave.framerate w) (self s) in
        if Nat.even (length (Wave.data w)) then
          let raw := Np.decode_le16 (Wave.data w) in
          let a2 := set_audio_data (Np.Int16Array raw) a1 in
          match Np.max_int16 (Np.abs_int16 raw) with
          | Raises e => (State (world s) a2, Raises e)
          | Returns peak =>
              let a3 := set_audio_data (Np.Float64Array (Np.true_divide raw peak)) a2 in
              if Wave.framerate w =? 0
              then (State (world s) a3, Raises (ZeroDivisionError "division by zero"))
              else (State (world s)
                      (set_time
                         (Np.linspace 0
                            (Np.Z2f (Z.of_nat (length raw)) / Np.Z2f (Wave.framerate w))
                            (length raw))
                         a3),
                    Returns tt)
          end
        else (State (world s) a1,
              Raises (ValueError "buffer size must be a multiple of element size"))
    end.
Proof.
  unfold load_audio_try, wave_open, Np.py_truediv, Np.frombuffer_int16,
    Wave.getframerate, Wave.readframes.
  py_unfold. cbn.
  destruct (fs (world s) !! wav_file_name (self s)) as [[w| | |]|]; try reflexivity.
  destruct (Nat.even (length (Wave.data w))); [|reflexivity]. cbn.
  destruct (Np.max_int16 _) as [peak|e]; [|reflexivity]. cbn.
  unfold Np.true_divide. rewrite length_map.
  destruct (Wave.framerate w =? 0); reflexivity.
Qed.

(** What [load_audio] returns on each path: the state the body reached and,
    where it raised, one more printed line. *)
Lemma load_audio_eval (s : state) :
  let logged (msg : string) (a : AudioApp) :=
    (State (mkWorld (fs (world s)) (os (world s)) (playable (world s)) (write_error (world s))
              (trace (world s) ++ [Print ("Error loading audio: " +:+ msg)]))
           a,
     Returns tt) in
  load_audio s =
    match fs (world s) !! wav_file_name (self s) with
    | None =>
        logged ("[Errno 2] No such file or directory: '"
                +:+ wav_file_name (self s) +:+ "'") (self s)
    | Some (NotWav why) => logged why (self s)
    | Some Truncated => logged "" (self s)
    | Some (Image format _) => logged (Wave.not_wave format) (self s)
    | Some (WavFile w) =>
        let a1 := set_sampling_rate (Wave.framerate w) (self s) in
        if Nat.even (length (Wave.data w)) then
          let raw := Np.decode_le16 (Wave.data w) in
          let a2 := set_audio_data (Np.Int16Array raw) a1 in
          match Np.max_int16 (Np.abs_int16 raw) with
          | Raises e => logged (py_str e) a2
          | Returns peak =>
              let a3 := set_audio_data (Np.Float64Array (Np.true_divide raw peak)) a2 in
              if Wave.framerate w =? 0 then logged "division by zero" a3
              else (State (world s)
                      (set_time
                         (Np.linspace 0
                            (Np.Z2f (Z.of_nat (length raw)) / Np.Z2f (Wave.framerate w))
                            (length raw))
                         a3),
                    Returns tt)
          end
        else logged "buffer size must be a multiple of element size" a1
    end.
Proof.
  cbv zeta. unfold load_audio, try_except. rewrite load_audio_try_eval.
  destruct (fs (world s) !! wav_file_name (self s)) as [[w| | |]|]; try reflexivity.
  destruct (Nat.even (length (Wave.data w))); [|reflexivity]. cbv zeta.
  destruct (Np.max_int16 _) as [peak|e] eqn:Hmax.
  - destruct (Wave.framerate w =? 0); reflexivity.
  - unfold Np.max_int16 in Hmax. destruct (Np.abs_int16 _); [|discriminate].
    injection Hmax as <-. reflexivity.
Qed.

Lemma app_one_ne {A} (l : list A) (x : A) : (l ++ [x])%list <> l.
Proof.
  intros E. apply (f_equal length) in E. rewrite length_app in E. cbn in E. lia.
Qed.

Lemma decode_le16_nonempty (buf : list byte) :
  Nat.even (length buf) = true -> buf <> [] -> Np.decode_le16 buf <> [].
Proof.
  destruct buf as [|lo [|hi rest]]; [congruence | discriminate | discriminate].
Qed.

Lemma max_abs_int16_cases (raw : list Z) :
  (raw = [] /\
   Np.max_int16 (Np.abs_int16 raw) =
     Raises (ValueError
       "zero-size array to reduction operation maximum which has no identity")) \/
  (raw <> [] /\ exists peak, Np.max_int16 (Np.abs_int16 raw) = Returns peak).
Proof.
  destruct raw as [|x l]; [left; now split | right]. split; [discriminate|].
  cbn. eauto.
Qed.

(** [load_audio] prints nothing or one line about the error. *)
Lemma load_audio_trace_cases (s : state) :
  trace (world (fst (load_audio s))) = trace (world s) \/
  exists msg,
    trace (world (fst (load_audio s))) =
      (trace (world s) ++ [Print ("Error loading audio: " +:+ msg)])%list.
Proof.
  rewrite load_audio_eval. cbv zeta.
  destruct (fs (world s) !! wav_file_name (self s)) as [[w| | |]|];
    try (right; eexists; reflexivity).
  destruct (Nat.even (length (Wave.data w))); [|right; eexists; reflexivity].
  destruct (Np.max_int16 _) as [peak|e]; [|right; eexists; reflexivity].
  destruct (Wave.framerate w =? 0); [right; eexists; reflexivity | now left].
Qed.

(** It prints nothing exactly on a loadable file. *)
Lemma load_audio_silent_iff_loadable (s : state) :
  trace (world (fst (load_audio s))) = trace (world s) <->
  loadable (world s) (wav_file_name (self s)).
Proof.
  unfold loadable. rewrite load_audio_eval. cbv zeta.
  destruct (fs (world s) !! wav_file_name (self s)) as [[w| | |]|];
    try (split; [intros E; cbn in E; now apply app_one_ne in E
                | intros (w' & Hw & _); discriminate Hw]).
  destruct (Nat.even (length (Wave.data w))) eqn:He.
  - destruct (max_abs_int16_cases (Np.decode_le16 (Wave.data w)))
      as [[Hraw ->]|[Hraw [peak ->]]].
    + split; [intros E; cbn in E; now apply app_one_ne in E|].
      intros (w' & [= <-] & _ & Hd & _). exfalso.
      now apply (decode_le16_nonempty (Wave.data w)).
    + destruct (Z.eqb_spec (Wave.framerate w) 0) as [Hr|Hr].
      * split; [intros E; cbn in E; now apply app_one_ne in E|].
        intros (w' & [= <-] & _ & _ & Hr'). contradiction.
      * split; [|reflexivity]. intros _. exists w. repeat split; auto.
        intros Hd. rewrite Hd in Hraw. now apply Hraw.
  - split; [intros E; cbn in E; now apply app_one_ne in E|].
    intros (w' & [= <-] & He' & _). congruence.
Qed.

(** X4: [load_audio] prints nothing exactly when the file it names is a
    WAV file whose data chunk holds whole int16 samples, at least one, and
    whose frame rate is not 0; in every other case it prints one line, which
    starts with "Error loading audio: ". *)
Theorem load_audio_prints_nothing_iff_loadable (s : state) :
  (trace (world (fst (load_audio s))) = trace (world s) <->
   loadable (world s) (wav_file_name (self s))) /\
  (~ loadable (world s) (wav_file_name (self s)) ->
   exists msg,
     trace (world (fst (load_audio s))) =
       (trace (world s) ++ [Print ("Error loading audio: " +:+ msg)])%list).
Proof.
  pose proof (load_audio_silent_iff_loadable s) as Hiff.
  split; [exact Hiff|]. intros Hno.
  destruct (load_audio_trace_cases s) as [E|Hmsg]; [now apply Hiff in E | exact Hmsg].
Qed.

(** X5: whatever the file, [load_audio] leaves the filesystem, the
    platform, the widgets, the file name and the figure as they were; it
    assigns at most [sampling_rate], [audio_data] and [time], and prints at
    most one line, which starts with "Error loading audio: ". *)
Theorem load_audio_touches_only_its_three_attributes (s : state) :
  let s' := fst (load_audio s) in
  fs (world s') = fs (world s) /\
  os (world s') = os (world s) /\
  playable (world s') = playable (world s) /\
  widgets (self s') = widgets (self s) /\
  wav_file_name (self s') = wav_file_name (self s) /\
  fig (self s') = fig (self s) /\
  (trace (world s') = trace (world s) \/
   exists msg,
     trace (world s') =
       (trace (world s) ++ [Print ("Error loading audio: " +:+ msg)])%list).
Proof.
  cbv zeta. rewrite load_audio_eval. cbv zeta.
  destruct (fs (world s) !! wav_file_name (self s)) as [[w| | |]|];
    try (cbn; repeat split; right; eexists; reflexivity).
  destruct (Nat.even (length (Wave.data w)));
    [|cbn; repeat split; right; eexists; reflexivity].
  destruct (Np.max_int16 _) as [peak|e];
    [|cbn; repeat split; right; eexists; reflexivity].
  destruct (Wave.framerate w =? 0);
    [cbn; repeat split; right; eexists; reflexivity|].
  cbn. repeat split. now left.
Qed.

(** X6: when the named file is missing or [wave.open] rejects it, the
    object is exactly as before the call: one line is printed, nothing is
    assigned, and the call returns. *)
Theorem load_audio_unreadable_file_keeps_object (s : state) :
  (forall w, fs (world s) !! wav_file_name (self s) <> Some (WavFile w)) ->
  exists msg,
    load_audio s =
      (State (mkWorld (fs (world s)) (os (world s)) (playable (world s)) (write_error (world s))
                (trace (world s) ++ [Print ("Error loading audio: " +:+ msg)]))
             (self s),
       Returns tt).
Proof.
  intros Hno. rewrite load_audio_eval. cbv zeta.
  destruct (fs (world s) !! wav_file_name (self s)) as [[w| | |]|];
    try (eexists; reflexivity).
  now destruct (Hno w).
Qed.

Lemma load_audio_unreadable_file_keeps_object_witness :
  exists msg,
    load_audio (State (world_with (Some (NotWav "unknown format: 85"))) fresh) =
      (State (mkWorld {[ "u.wav" := NotWav "unknown format: 85" ]} Windows
                (fun _ => true) (fun _ _ => None) [Print ("Error loading audio: " +:+ msg)])
             fresh,
       Returns tt).
Proof.
  apply (load_audio_unreadable_file_keeps_object
           (State (world_with (Some (NotWav "unknown format: 85"))) fresh)).
  intros w. vm_compute. discriminate.
Defined.

(** X7: a data chunk with an odd number of bytes stops the load at
    [np.frombuffer]: the frame rate is already stored, [audio_data] and [time]
    keep their old values, and numpy's message is printed. *)
Theorem load_audio_odd_chunk_sets_rate_only (s : state) (w : Wave.wav) :
  fs (world s) !! wav_file_name (self s) = Some (WavFile w) ->
  Nat.even (length (Wave.data w)) = false ->
  load_audio s =
    (State (mkWorld (fs (world s)) (os (world s)) (playable (world s)) (write_error (world s))
              (trace (world s) ++
               [Print "Error loading audio: buffer size must be a multiple of element size"]))
           (mkApp (widgets (self s)) (wav_file_name (self s)) (audio_data (self s))
              (Some (Wave.framerate w)) (time (self s)) (fig (self s))),
     Returns tt).
Proof.
  intros Hf He. rewrite load_audio_eval. cbv zeta. rewrite Hf, He. reflexivity.
Qed.

Lemma load_audio_odd_chunk_sets_rate_only_witness :
  self (fst (load_audio
    (State (world_with (Some (WavFile (Wave.Wav 1 1 8000 [x80; x81; x7f])))) fresh)))
  = mkApp [] "u.wav" None (Some 8000) None (Mpl.subplots (10, 4)).
Proof.
  rewrite (load_audio_odd_chunk_sets_rate_only
             (State (world_with (Some (WavFile (Wave.Wav 1 1 8000 [x80; x81; x7f]))))
                    fresh)
             (Wave.Wav 1 1 8000 [x80; x81; x7f]) eq_refl eq_refl).
  reflexivity.
Defined.

(** X8: a WAV file with no frames stops the load at [np.max]:
    [audio_data] is left as the empty int16 array, not normalised, the frame
    rate is stored, [time] keeps its old value, and
    numpy's message about the zero-size array is printed. *)
Theorem load_audio_no_frames_leaves_empty_int16 (s : state) (w : Wave.wav) :
  fs (world s) !! wav_file_name (self s) = Some (WavFile w) ->
  Wave.data w = [] ->
  load_audio s =
    (State (mkWorld (fs (world s)) (os (world s)) (playable (world s)) (write_error (world s))
              (trace (world s) ++
               [Print "Error loading audio: zero-size array to reduction operation maximum which has no identity"]))
           (mkApp (widgets (self s)) (wav_file_name (self s))
              (Some (Np.Int16Array []))
              (Some (Wave.framerate w)) (time (self s)) (fig (self s))),
     Returns tt).
Proof.
  intros Hf Hd. rewrite load_audio_eval. cbv zeta. rewrite Hf, Hd. reflexivity.
Qed.

Lemma load_audio_no_frames_leaves_empty_int16_witness :
  self (fst (load_audio
    (State (world_with (Some (WavFile (Wave.Wav 2 2 44100 [])))) fresh)))
  = mkApp [] "u.wav" (Some (Np.Int16Array [])) (Some 44100) None (Mpl.subplots (10, 4)).
Proof.
  rewrite (load_audio_no_frames_leaves_empty_int16
             (State (world_with (Some (WavFile (Wave.Wav 2 2 44100 [])))) fresh)
             (Wave.Wav 2 2 44100 []) eq_refl eq_refl).
  reflexivity.
Defined.

(** X9: a header with frame rate 0 stops the load at the division
    for the duration: the samples are already normalised and stored, the rate
    0 is stored, [time] keeps its old value, and "division by zero" is
    printed. *)
Theorem load_audio_zero_rate_normalizes_without_time (s : state) (w : Wave.wav) :
  fs (world s) !! wav_file_name (self s) = Some (WavFile w) ->
  Nat.even (length (Wave.data w)) = true ->
  Wave.data w <> [] ->
  Wave.framerate w = 0 ->
  exists peak,
    Np.max_int16 (Np.abs_int16 (Np.decode_le16 (Wave.data w))) = Returns peak /\
    load_audio s =
      (State (mkWorld (fs (world s)) (os (world s)) (playable (world s)) (write_error (world s))
                (trace (world s) ++ [Print "Error loading audio: division by zero"]))
             (mkApp (widgets (self s)) (wav_file_name (self s))
                (Some (Np.Float64Array
                         (Np.true_divide (Np.decode_le16 (Wave.data w)) peak)))
                (Some 0) (time (self s)) (fig (self s))),
       Returns tt).
Proof.
  intros Hf He Hd Hr. rewrite load_audio_eval. cbv zeta. rewrite Hf, He, Hr.
  destruct (max_abs_int16_cases (Np.decode_le16 (Wave.data w)))
    as [[Hraw _]|[_ [peak Hpeak]]].
  - now apply decode_le16_nonempty in Hraw.
  - exists peak. rewrite Hpeak. split; reflexivity.
Qed.

Lemma load_audio_zero_rate_normalizes_without_time_witness :
  self (fst (load_audio
    (State (world_with (Some (WavFile (mono16 0 [1; -2; 3; -4])))) fresh)))
  = mkApp [] "u.wav"
      (Some (Np.Float64Array [(0.25)%float; (-0.5)%float; (0.75)%float; (-1)%float]))
      (Some 0) None (Mpl.subplots (10, 4)).
Proof.
  destruct (load_audio_zero_rate_normalizes_without_time
              (State (world_with (Some (WavFile (mono16 0 [1; -2; 3; -4])))) fresh)
              (mono16 0 [1; -2; 3; -4]) eq_refl eq_refl)
    as (peak & Hpeak & ->).
  - discriminate.
  - reflexivity.
  - vm_compute in Hpeak. injection Hpeak as <-. vm_compute. reflexivity.
Defined.

(** X10: after [load_audio] on the object [__init__] has just set up,
    either [time] is set, and then the normalised buffer holds at least one
    sample and as many as [time], the rate is not 0 and nothing was printed;
    or [time] is still [None] and one error line was printed. *)
Theorem fresh_load_leaves_buffer_or_nothing (w : World) :
  let s' := fst (load_audio (State w fresh)) in
  match time (self s') with
  | Some t =>
      exists (d : list float) (rate : Z),
        audio_data (self s') = Some (Np.Float64Array d) /\
        sampling_rate (self s') = Some rate /\
        rate <> 0 /\
        (1 <= length d)%nat /\
        length t = length d /\
        trace (world s') = trace w
  | None =>
      exists msg,
        trace (world s') = (trace w ++ [Print ("Error loading audio: " +:+ msg)])%list
  end.
Proof.
  cbv zeta. rewrite load_audio_eval. cbv zeta. cbn [world self fresh wav_file_name].
  destruct (fs w !! "u.wav") as [[f| | |]|]; try (cbn; eexists; reflexivity).
  destruct (Nat.even (length (Wave.data f))); [|cbn; eexists; reflexivity].
  destruct (max_abs_int16_cases (Np.decode_le16 (Wave.data f)))
    as [[Hraw ->]|[Hraw [peak ->]]]; [cbn; eexists; reflexivity|].
  destruct (Z.eqb_spec (Wave.framerate f) 0) as [Hr|Hr]; [cbn; eexists; reflexivity|].
  cbn. eexists _, _. split; [reflexivity|]. split; [reflexivity|].
  split; [exact Hr|]. unfold Np.true_divide. rewrite length_map, linspace_length.
  split; [|split; reflexivity].
  destruct (Np.decode_le16 (Wave.data f)); [congruence | cbn; lia].
Qed.

Lemma load_audio_keeps_file (s : state) :
  fs (world (fst (load_audio s))) = fs (world s) /\
  wav_file_name (self (fst (load_audio s))) = wav_file_name (self s).
Proof.
  rewrite load_audio_eval. cbv zeta.
  destruct (fs (world s) !! wav_file_name (self s)) as [[w| | |]|]; try (now split).
  destruct (Nat.even (length (Wave.data w))); [|now split].
  destruct (Np.max_int16 _) as [peak|e]; [|now split].
  destruct (Wave.framerate w =? 0); now split.
Qed.

(** X11: loading again changes nothing in the object: a second
    [load_audio] leaves the attributes the first one left (the file is read
    again, and a failure is printed again). *)
Theorem load_audio_twice_same_object (s : state) :
  self (fst (load_audio (fst (load_audio s)))) = self (fst (load_audio s)).
Proof.
  destruct (load_audio_keeps_file s) as [Hfs Hname].
  rewrite (load_audio_eval (fst (load_audio s))). cbv zeta. rewrite Hfs, Hname.
  rewrite (load_audio_eval s). cbv zeta.
  destruct (fs (world s) !! wav_file_name (self s)) as [[w| | |]|]; try reflexivity.
  destruct (Nat.even (length (Wave.data w))); [|reflexivity].
  destruct (Np.max_int16 _) as [peak|e]; [|reflexivity].
  destruct (Wave.framerate w =? 0); reflexivity.
Qed.


Lemma load_audio_try_returns_iff_loadable (s : state) :
  (exists s1, load_audio_try s = (s1, Returns tt)) <->
  loadable (world s) (wav_file_name (self s)).
Proof.
  unfold loadable. rewrite load_audio_try_eval. cbv zeta.
  destruct (fs (world s) !! wav_file_name (self s)) as [[w| | |]|];
    try (split; [intros [s1 [=]] | intros (f0 & [=] & _)]; fail).
  destruct (Nat.even (length (Wave.data w))) eqn:He.
  - destruct (max_abs_int16_cases (Np.decode_le16 (Wave.data w)))
      as [[Hraw Hmax]|[Hraw [peak Hmax]]]; rewrite Hmax.
    + split; [intros [s1 [=]]|]. intros (f & [= <-] & _ & Hd & _).
      now apply (decode_le16_nonempty (Wave.data w)) in Hd.
    + destruct (Z.eqb_spec (Wave.framerate w) 0) as [Hr|Hr].
      * split; [intros [s1 [=]]|]. intros (f & [= <-] & _ & _ & Hr'). contradiction.
      * split; [|eauto]. intros _. exists w. repeat split; auto.
        intros Hd. rewrite Hd in Hraw. now apply Hraw.
  - split; [intros [s1 [=]]|]. intros (f & [= <-] & He' & _). congruence.
Qed.

(** When the body raises on the fresh object, the world is untouched, the
    time axis is unset, and nothing but the two loaded attributes moved. *)
Lemma load_audio_try_fresh_raises (w : World) (s1 : state) (e : exn) :
  load_audio_try (State w fresh) = (s1, Raises e) ->
  world s1 = w /\ time (self s1) = None /\ widgets (self s1) = [] /\
  wav_file_name (self s1) = "u.wav" /\ fig (self s1) = Mpl.subplots (10, 4).
Proof.
  rewrite load_audio_try_eval. cbv zeta. cbn [world self fresh wav_file_name].
  destruct (fs w !! "u.wav") as [[f| | |]|]; try (intros [= <- _]; now repeat split).
  destruct (Nat.even (length (Wave.data f))); [|intros [= <- _]; now repeat split].
  destruct (Np.max_int16 _) as [peak|e']; [|intros [= <- _]; now repeat split].
  destruct (Wave.framerate f =? 0); [intros [= <- _]; now repeat split | discriminate].
Qed.

(** [plot_audio] on an object whose time axis or samples are unset. *)
Lemma plot_audio_without_buffer (w : World) (a : AudioApp) :
  time a = None \/ audio_data a = None ->
  plot_audio (State w a) =
    (State (mkWorld (fs w) (os w) (playable w) (write_error w)
              (trace w ++ [AxPlot (time a) (audio_data a) "b"]))
           a,
     Raises (ValueError "x, y, and format string must not be None")).
Proof.
  intros H. destruct a as [wd name ad sr tm fg]. cbn [time audio_data] in *.
  unfold plot_audio, ax_plot. py_unfold. cbn.
  destruct tm as [t|], ad as [d|]; try reflexivity. destruct H; discriminate.
Qed.

(** X12: with [time] or [audio_data] still [None], [plot_audio] calls
    [Axes.plot] once and raises ValueError out of it: no line is added, no
    label, title or grid is set, the object is as before. *)
Theorem plot_audio_unset_raises_untouched (w : World) (a : AudioApp) :
  time a = None \/ audio_data a = None ->
  plot_audio (State w a) =
    (State (mkWorld (fs w) (os w) (playable w) (write_error w)
              (trace w ++ [AxPlot (time a) (audio_data a) "b"]))
           a,
     Raises (ValueError "x, y, and format string must not be None")) /\
  fig (self (fst (plot_audio (State w a)))) = fig a.
Proof.
  intros H. rewrite (plot_audio_without_buffer w a H). split; reflexivity.
Qed.

Lemma plot_audio_unset_raises_untouched_witness :
  snd (plot_audio (State (world_with None) fresh))
  = Raises (ValueError "x, y, and format string must not be None").
Proof.
  destruct (plot_audio_unset_raises_untouched (world_with None) fresh
              (or_introl eq_refl)) as [-> _].
  reflexivity.
Defined.

Lemma init_after_failed_load (w : World) (s1 : state) (e : exn) :
  load_audio_try (State w fresh) = (s1, Raises e) ->
  __init__ w =
    (State (mkWorld (fs w) (os w) (playable w) (write_error w)
              (trace w ++ [Print ("Error loading audio: " +:+ py_str e);
                           AxPlot None (audio_data (self s1)) "b"]))
           (self s1),
     Raises (ValueError "x, y, and format string must not be None")).
Proof.
  intros H. destruct (load_audio_try_fresh_raises w s1 e H) as (Hw & Ht & _).
  unfold __init__. unfold mbind at 1, py_bind, bind.
  unfold load_audio, try_except. rewrite H, (load_audio_try_raises _ _ _ H).
  unfold print, emit. cbn -[plot_audio]. rewrite Hw.
  unfold mbind, py_bind, bind.
  rewrite plot_audio_without_buffer by (now left).
  cbn. rewrite Ht, <- app_assoc. reflexivity.
Qed.


(** ** The constructor and the script *)

Lemma load_audio_try_fresh_cases (w : World) :
  (loadable w "u.wav" /\
   exists s1, load_audio_try (State w fresh) = (s1, Returns tt)) \/
  (~ loadable w "u.wav" /\
   exists s1 e, load_audio_try (State w fresh) = (s1, Raises e)).
Proof.
  pose proof (load_audio_try_returns_iff_loadable (State w fresh)) as Hiff.
  cbn [world self fresh wav_file_name] in Hiff.
  destruct (load_audio_try (State w fresh)) as [s1 [[]|e]] eqn:H.
  - left. split; [apply Hiff|]; eauto.
  - right. split; [|eauto]. intros Hl. apply Hiff in Hl as [s2 [=]].
Qed.

Lemma init_after_load (w : World) (s1 : state) :
  load_audio_try (State w fresh) = (s1, Returns tt) ->
  exists st, __init__ w = (st, Returns tt).
Proof.
  intros H. unfold __init__. unfold mbind at 1, py_bind, bind.
  rewrite (load_audio_ok _ _ H).
  apply load_audio_try_returns in H as (f & raw & peak & _ & _ & _ & _ & ->).
  unfold mbind, py_bind, bind.
  erewrite plot_audio_on_buffer; [eexists; reflexivity | reflexivity | reflexivity |].
  unfold Np.true_divide. now rewrite linspace_length, length_map.
Qed.

(** X13: when "u.wav" cannot be loaded, [AudioApp()] raises the
    ValueError of [Axes.plot]: the load's error line is printed, then
    [plot_audio] is still called, with [None] for the time axis, and
    [create_widgets] is never reached: no widget exists and the figure is
    blank. *)
Theorem init_raises_when_load_fails (w : World) :
  ~ loadable w "u.wav" ->
  exists (msg : string) (a : AudioApp),
    __init__ w =
      (State (mkWorld (fs w) (os w) (playable w) (write_error w)
                (trace w ++ [Print ("Error loading audio: " +:+ msg);
                             AxPlot None (audio_data a) "b"]))
             a,
       Raises (ValueError "x, y, and format string must not be None")) /\
    widgets a = [] /\
    time a = None /\
    fig a = Mpl.subplots (10, 4).
Proof.
  intros Hno.
  destruct (load_audio_try_fresh_cases w) as [[Hl _]|[_ (s1 & e & H)]]; [contradiction|].
  destruct (load_audio_try_fresh_raises w s1 e H) as (_ & Ht & Hw & _ & Hf).
  exists (py_str e), (self s1).
  split; [now apply init_after_failed_load|]. repeat split; assumption.
Qed.

Lemma init_raises_when_load_fails_witness :
  exists (msg : string) (a : AudioApp),
    snd (__init__ (world_with (Some Truncated)))
    = Raises (ValueError "x, y, and format string must not be None") /\
    widgets a = [].
Proof.
  destruct (init_raises_when_load_fails (world_with (Some Truncated)))
    as (msg & a & Hinit & Hw & _).
  - intros (f & Hf & _). vm_compute in Hf. discriminate Hf.
  - exists msg, a. split; [rewrite Hinit; reflexivity | exact Hw].
Defined.

(** What one click does, through Tk's wrapper. *)
Lemma tk_click_effects (c : command) (dialog : string) (s : state) :
  exists w' evs,
    tk_call (click c dialog) s = (State w' (self s), Returns tt) /\
    os w' = os (world s) /\
    playable w' = playable (world s) /\
    (fs w' = fs (world s) \/
     c = GuardarImagenCompleta /\ dialog <> "" /\
     fs w' = <[savefig_filename (os (world s)) dialog :=
               Image (savefig_format (os (world s)) dialog) (fig (self s))]>
               (fs (world s))) /\
    trace w' = (trace (world s) ++ evs)%list /\
    List.filter is_PlaySound evs =
      if is_play_click (c, dialog) then
        match os (world s) with
        | Windows => [PlaySound (wav_file_name (self s)) SND_FILENAME]
        | _ => []
        end
      else [].
Proof.
  unfold tk_call. destruct c; cbn [click is_play_click fst].
  - destruct dialog as [|a p].
    + exists (world s), []. cbn. destruct s as [w a]. cbn.
      rewrite app_nil_r. repeat split; try reflexivity. now left.
    + rewrite guardar_imagen_completa_result. cbv zeta.
      destruct (Mpl.is_supported _);
        [destruct (write_error _ _ _)|].
      * eexists _, [Savefig (String a p); Print "Exception in Tkinter callback"].
        unfold print, emit. cbn. split; [reflexivity|].
        do 2 (split; [reflexivity|]). split; [now left|].
        split; [now rewrite <- app_assoc | reflexivity].
      * eexists _, [Savefig (String a p); Print ("Imagen guardada: " +:+ String a p)].
        cbn. split; [reflexivity|].
        do 2 (split; [reflexivity|]). split; [|split; reflexivity].
        right. repeat split. discriminate.
      * eexists _, [Savefig (String a p); Print "Exception in Tkinter callback"].
        unfold print, emit. cbn. split; [reflexivity|].
        do 2 (split; [reflexivity|]). split; [now left|].
        split; [now rewrite <- app_assoc | reflexivity].
  - rewrite reproducir_audio_result. eexists _, _. split; [reflexivity|].
    cbn [os playable fs trace]. do 2 (split; [reflexivity|]).
    split; [now left|]. split; [reflexivity|].
    destruct (os (world s)); try reflexivity.
    destruct (playable (world s) (wav_file_name (self s))); reflexivity.
Qed.

Lemma mainloop_returns (clicks : list (command * string)) (s : state) :
  exists w', mainloop clicks s = (State w' (self s), Returns tt).
Proof.
  revert s. induction clicks as [|[c dialog] rest IH]; intros s.
  - exists (world s). now destruct s.
  - cbn [mainloop]. unfold mbind, py_bind, bind.
    destruct (tk_click_effects c dialog s) as (w1 & evs & -> & _).
    destruct (IH (State w1 (self s))) as [w2 ->]. eauto.
Qed.

(** X14: the program reaches its event loop, and then ends normally
    whatever is clicked, exactly when "u.wav" is loadable; otherwise it ends
    in the constructor with the ValueError, and no click is ever served. *)
Theorem main_serves_clicks_iff_loadable (clicks : list (command * string)) (w : World) :
  ((exists st, main clicks w = (st, Returns tt)) <-> loadable w "u.wav") /\
  (~ loadable w "u.wav" ->
   main clicks w = __init__ w /\
   snd (main clicks w) = Raises (ValueError "x, y, and format string must not be None")).
Proof.
  unfold main.
  destruct (load_audio_try_fresh_cases w) as [[Hl [s1 H]]|[Hno (s1 & e & H)]].
  - destruct (init_after_load w s1 H) as [st ->]. split; [|contradiction].
    split; [intros _; exact Hl|]. intros _. unfold run.
    destruct (mainloop_returns clicks st) as [w' ->]. eauto.
  - rewrite (init_after_failed_load w s1 e H). split.
    + split; [intros [st [=]] | contradiction].
    + intros _. split; reflexivity.
Qed.

(** ** The plot, drawn again *)

(** X15: drawing a buffer twice calls [Axes.plot] twice, leaves the
    same line twice on the figure, and brings the grid back to what it was
    before the first call, since [ax.grid()] toggles. *)
Theorem plot_audio_twice_overlays_and_hides_grid
    (w : World) (a : AudioApp) (t d : list float) :
  time a = Some t ->
  audio_data a = Some (Np.Float64Array d) ->
  length t = length d ->
  (plot_audio;; plot_audio) (State w a) =
    (State (mkWorld (fs w) (os w) (playable w) (write_error w)
              (trace w ++ [AxPlot (Some t) (Some (Np.Float64Array d)) "b";
                           AxPlot (Some t) (Some (Np.Float64Array d)) "b"]))
           (mkApp (widgets a) (wav_file_name a) (audio_data a) (sampling_rate a)
              (time a)
              (Mpl.Figure (Mpl.figsize (fig a))
                 (Mpl.lines (fig a) ++ [Mpl.Line2D t d "b"; Mpl.Line2D t d "b"])
                 "Tiempo [s]" "Amplitud" "Onda Sonora" (Mpl.grid_on (fig a)))),
     Returns tt).
Proof.
  intros Ht Hd Hlen. unfold mbind, py_bind, bind.
  rewrite (plot_audio_on_buffer w a t d Ht Hd Hlen).
  erewrite plot_audio_on_buffer; [|exact Ht | exact Hd | exact Hlen].
  cbn. rewrite negb_involutive, <- !app_assoc. reflexivity.
Qed.

Lemma plot_audio_twice_overlays_and_hides_grid_witness :
  Mpl.grid_on (fig (self (fst ((plot_audio;; plot_audio)
    (State (world_with None)
       (mkApp [] "u.wav" (Some (Np.Float64Array [1%float; (-1)%float]))
          (Some 8000) (Some [0%float; (0x1.0624dd2f1a9fcp-12)%float])
          (Mpl.subplots (10, 4)))))))) = false.
Proof.
  rewrite (plot_audio_twice_overlays_and_hides_grid (world_with None)
             (mkApp [] "u.wav" (Some (Np.Float64Array [1%float; (-1)%float]))
                (Some 8000) (Some [0%float; (0x1.0624dd2f1a9fcp-12)%float])
                (Mpl.subplots (10, 4)))
             [0%float; (0x1.0624dd2f1a9fcp-12)%float] [1%float; (-1)%float]
             eq_refl eq_refl eq_refl).
  reflexivity.
Defined.

(** ** Files *)

(** What [load_audio] leaves in the object depends on the object and on the
    one file it names. *)
Lemma load_audio_reads_one_file (w1 w2 : World) (a : AudioApp) :
  fs w1 !! wav_file_name a = fs w2 !! wav_file_name a ->
  self (fst (load_audio (State w1 a))) = self (fst (load_audio (State w2 a))).
Proof.
  intros H. rewrite !load_audio_eval. cbv zeta. cbn [world self]. rewrite H.
  destruct (fs w2 !! wav_file_name a) as [[f| | |]|]; try reflexivity.
  destruct (Nat.even (length (Wave.data f))); [|reflexivity].
  destruct (Np.max_int16 _) as [peak|e]; [|reflexivity].
  destruct (Wave.framerate f =? 0); reflexivity.
Qed.

Lemma guardar_imagen_completa_effects (path : string) (s : state) :
  self (fst (guardar_imagen_completa path s)) = self s /\
  forall q, path = "" \/ savefig_filename (os (world s)) path <> q ->
    fs (world (fst (guardar_imagen_completa path s))) !! q = fs (world s) !! q.
Proof.
  destruct path as [|c p]; [now split|].
  rewrite guardar_imagen_completa_result. cbv zeta.
  destruct (Mpl.is_supported _); [destruct (write_error _ _ _)|];
    (split; [reflexivity|]); intros q Hq; try reflexivity.
  cbn. apply lookup_insert_ne. destruct Hq as [Hq|Hq]; [discriminate | exact Hq].
Qed.

(** X16: an export that is cancelled, or whose file name (the answer, or the
    answer with ".png" when it has no extension) is not the audio file's,
    leaves the audio file as it was, whether [savefig] writes or raises, and a
    load after it gives the object the same attributes as a load before
    it. *)
Theorem export_elsewhere_keeps_loading (path : string) (s : state) :
  path = "" \/ savefig_filename (os (world s)) path <> wav_file_name (self s) ->
  let s1 := fst (guardar_imagen_completa path s) in
  fs (world s1) !! wav_file_name (self s1) = fs (world s) !! wav_file_name (self s) /\
  self (fst (load_audio s1)) = self (fst (load_audio s)).
Proof.
  intros Hp s1. destruct (guardar_imagen_completa_effects path s) as [Hself Hfs].
  fold s1 in Hself, Hfs.
  assert (Hlook : fs (world s1) !! wav_file_name (self s1)
                  = fs (world s) !! wav_file_name (self s))
    by (rewrite Hself; apply Hfs, Hp).
  split; [exact Hlook|].
  destruct s1 as [w1 a1], s as [w a]. cbn [self world] in *. subst a1.
  now apply load_audio_reads_one_file.
Qed.

Lemma export_elsewhere_keeps_loading_witness :
  self (fst (load_audio (fst (guardar_imagen_completa "onda"
    (State (world_with (Some (WavFile (mono16 8000 [1; -2; 3; -4])))) fresh)))))
  = self (fst (load_audio
      (State (world_with (Some (WavFile (mono16 8000 [1; -2; 3; -4])))) fresh))).
Proof.
  apply (export_elsewhere_keeps_loading "onda"
           (State (world_with (Some (WavFile (mono16 8000 [1; -2; 3; -4])))) fresh)).
  right. vm_compute. discriminate.
Defined.



(** X18: over the whole event loop, [winsound.PlaySound] is called
    once for each click on "Reproducir Audio" on Windows, each time with the
    object's file name and SND_FILENAME, and never on another platform. *)
Theorem run_plays_once_per_click (clicks : list (command * string)) (s : state) :
  exists evs,
    trace (world (fst (run clicks s))) = (trace (world s) ++ evs)%list /\
    List.filter is_PlaySound evs =
      match os (world s) with
      | Windows =>
          repeat (PlaySound (wav_file_name (self s)) SND_FILENAME)
                 (length (List.filter is_play_click clicks))
      | _ => []
      end.
Proof.
  unfold run. revert s. induction clicks as [|[c dialog] rest IH]; intros s.
  - exists []. cbn. rewrite app_nil_r. split; [reflexivity|].
    destruct (os (world s)); reflexivity.
  - cbn [mainloop]. unfold mbind, py_bind, bind.
    destruct (tk_click_effects c dialog s) as (w1 & evs1 & -> & Hos & _ & _ & Htr & Hplay).
    destruct (IH (State w1 (self s))) as (evs2 & Htr2 & Hplay2).
    cbn [world self] in Htr2, Hplay2.
    exists (evs1 ++ evs2)%list. split.
    + rewrite Htr2, Htr, app_assoc. reflexivity.
    + rewrite List.filter_app, Hplay, Hplay2, Hos. cbn [List.filter].
      destruct (is_play_click (c, dialog)); [|reflexivity].
      destruct (os (world s)); reflexivity.
Qed.


(** ** Signs, and the sample -32768 *)

(** The float64 quotient by a positive integer has the sign of the
    numerator, and the numerator 0 gives +0.0. *)
Lemma Z2f_div_sign (x p : Z) :
  0 < p < two53 -> - p <= x <= p ->
  (x = 0 -> (Np.Z2f x / Np.Z2f p)%float = 0%float) /\
  (0 < x -> (0 <? Np.Z2f x / Np.Z2f p)%float = true) /\
  (x < 0 -> (Np.Z2f x / Np.Z2f p <? 0)%float = true).
Proof.
  intros Hp Hx. split; [|split].
  - intros ->. apply Prim2SF_inj.
    destruct (Prim2SF_Z2f_pos p) as (m2 & Hrep & _); [lia|].
    rewrite div_spec, Hrep. reflexivity.
  - intros Hpos. rewrite ltb_spec.
    destruct (Z2f_div_rep false x p) as (m & e & Hrep & _); [lia | lia |].
    cbn [signed] in Hrep. rewrite Hrep, Prim2SF_zero. reflexivity.
  - intros Hneg. rewrite ltb_spec.
    destruct (Z2f_div_rep true (- x) p) as (m & e & Hrep & _); [lia | lia |].
    cbn [signed] in Hrep. rewrite Z.opp_involutive in Hrep.
    rewrite Hrep, Prim2SF_zero. reflexivity.
Qed.

(** X19: on a file with no sample equal to -32768 and some sample
    other than 0, a load that runs to its end keeps every sample's sign: 0
    becomes 0.0, a positive sample a positive float, a negative sample a
    negative float, position by position. *)
Theorem load_audio_normalized_keeps_sign (s s' : state) (w : Wave.wav) :
  fs (world s) !! wav_file_name (self s) = Some (WavFile w) ->
  load_audio_try s = (s', Returns tt) ->
  Forall (fun x => x <> -32768) (Np.decode_le16 (Wave.data w)) ->
  Exists (fun x => x <> 0) (Np.decode_le16 (Wave.data w)) ->
  exists d : list float,
    audio_data (self s') = Some (Np.Float64Array d) /\
    Forall2 (fun x v =>
               (x = 0 -> v = 0%float) /\
               (0 < x -> (0 <? v)%float = true) /\
               (x < 0 -> (v <? 0)%float = true))
            (Np.decode_le16 (Wave.data w)) d.
Proof.
  intros Hf H Hmin Hnz.
  apply load_audio_try_returns in H as (w' & raw & peak & Hf' & Hraw & Hpeak & _ & ->).
  rewrite Hf in Hf'. injection Hf' as <-.
  unfold Np.frombuffer_int16 in Hraw.
  destruct (Nat.even _); [|discriminate]. injection Hraw as <-.
  set (raw := Np.decode_le16 (Wave.data w)) in *.
  assert (Hrange : Forall (fun x => -32767 <= x <= 32767) raw).
  { pose proof (decode_le16_is_int16 (Wave.data w)) as Hint. fold raw in Hint.
    rewrite Forall_forall in Hint, Hmin |- *. intros x Hx.
    specialize (Hint x Hx). specialize (Hmin x Hx).
    unfold Np.is_int16, Np.int16_min, Np.int16_max in Hint. lia. }
  destruct (peak_is_largest_magnitude raw peak Hrange Hpeak) as (Hall & _ & Hm).
  assert (Hp : 0 < peak < two53).
  { apply Exists_exists in Hnz as (x & Hx & Hx0).
    rewrite Forall_forall in Hall. specialize (Hall x Hx). unfold two53. lia. }
  eexists. cbn [self audio_data]. split; [reflexivity|].
  unfold Np.true_divide. clear Hpeak Hrange Hnz Hmin Hf.
  induction Hall as [|x l Hx _ IH]; cbn [map]; constructor; [|exact IH].
  apply Z2f_div_sign; [exact Hp | lia].
Qed.

Lemma load_audio_normalized_keeps_sign_witness :
  exists d : list float,
    Some (Np.Float64Array [(0.25)%float; (-0.5)%float; 0%float; (-1)%float])
      = Some (Np.Float64Array d) /\
    length d = 4%nat.
Proof.
  destruct (load_audio_normalized_keeps_sign
    (State (world_with (Some (WavFile (mono16 8000 [1; -2; 0; -4])))) fresh)
    (State (world_with (Some (WavFile (mono16 8000 [1; -2; 0; -4]))))
       (mkApp [] "u.wav"
          (Some (Np.Float64Array
                   [(0.25)%float; (-0.5)%float; 0%float; (-1)%float]))
          (Some 8000)
          (Some (Np.linspace 0 (Np.Z2f 4 / Np.Z2f 8000) 4))
          (Mpl.subplots (10, 4))))
    (mono16 8000 [1; -2; 0; -4])
    eq_refl
    ltac:(vm_compute; reflexivity))
    as (d & Hd & Hsign).
  - vm_compute. repeat constructor; discriminate.
  - vm_compute. left. discriminate.
  - exists d. split; [exact Hd|]. injection Hd as <-. reflexivity.
Defined.

Lemma all_from_spec (f : Z -> bool) (n : nat) (p q : Z) :
  all_from f n p = true -> p <= q < p + Z.of_nat n -> f q = true.
Proof.
  revert p. induction n as [|n IH]; intros p H Hq; [lia|].
  cbn [all_from] in H. apply andb_true_iff in H as [Hp Hrest].
  destruct (Z.eq_dec q p) as [->|Hne]; [exact Hp|].
  apply (IH (p + 1)); [exact Hrest | lia].
Qed.

(** -32768 over each peak an int16 buffer can have besides it. *)
Lemma int16_min_over_peak (p : Z) :
  1 <= p <= 32767 -> (Np.Z2f (-32768) / Np.Z2f p <? -1)%float = true.
Proof.
  intros Hp.
  apply (all_from_spec (fun p => (Np.Z2f (-32768) / Np.Z2f p <? -1)%float)
           (Z.to_nat 32767) 1); [vm_compute; reflexivity | lia].
Qed.

Lemma max_int16_spec (a : list Z) (m : Z) :
  Np.max_int16 a = Returns m -> Forall (fun y => y <= m) a /\ In m a.
Proof.
  destruct a as [|x l]; [discriminate|]. cbn [Np.max_int16]. intros [= <-].
  destruct (fold_left_max_spec l x) as (Hx & Hall & Hin).
  split; [constructor; assumption|].
  destruct Hin as [->|Hin]; [now left | now right].
Qed.

(** With -32768 in the buffer the peak is the largest magnitude of the other
    samples. *)
Lemma peak_beside_int16_min (a : list Z) (m : Z) :
  Forall Np.is_int16 a ->
  Exists (fun x => x <> 0 /\ x <> -32768) a ->
  Np.max_int16 (Np.abs_int16 a) = Returns m ->
  1 <= m <= 32767.
Proof.
  intros Hint Hex Hmax. apply max_int16_spec in Hmax as [Hall Hin].
  unfold Np.abs_int16 in Hall, Hin. split.
  - apply Exists_exists in Hex as (x & Hx & Hx0 & Hxm).
    rewrite Forall_forall in Hall, Hint.
    specialize (Hint x Hx). unfold Np.is_int16, Np.int16_min, Np.int16_max in Hint.
    assert (Hle : Np.wrap16 (Z.abs x) <= m).
    { apply Hall. apply list_elem_of_In, in_map_iff. exists x.
      split; [reflexivity | now apply list_elem_of_In]. }
    rewrite wrap16_id in Hle
      by (unfold Np.is_int16, Np.int16_min, Np.int16_max; lia).
    lia.
  - apply in_map_iff in Hin as (y & <- & _).
    pose proof (wrap16_is_int16 (Z.abs y)) as H.
    unfold Np.is_int16, Np.int16_min, Np.int16_max in H. lia.
Qed.

(** X20: whenever the buffer holds the sample -32768 beside some
    sample that is neither 0 nor -32768, the load succeeds silently and the
    normalised buffer holds a value below -1.0: [np.abs] leaves -32768
    negative, so the peak is taken over the other samples only. *)
Theorem load_audio_int16_min_falls_below_minus_one (s : state) (w : Wave.wav) :
  fs (world s) !! wav_file_name (self s) = Some (WavFile w) ->
  Nat.even (length (Wave.data w)) = true ->
  Wave.framerate w <> 0 ->
  Exists (fun x => x = -32768) (Np.decode_le16 (Wave.data w)) ->
  Exists (fun x => x <> 0 /\ x <> -32768) (Np.decode_le16 (Wave.data w)) ->
  exists (s' : state) (d : list float),
    load_audio s = (s', Returns tt) /\
    world s' = world s /\
    audio_data (self s') = Some (Np.Float64Array d) /\
    Exists (fun v => (v <? -1)%float = true) d.
Proof.
  intros Hf He Hr Hmin Hoth.
  set (raw := Np.decode_le16 (Wave.data w)) in *.
  destruct (max_int16_nonempty (Np.abs_int16 raw)) as [peak Hpeak].
  { destruct raw; [inversion Hmin | discriminate]. }
  pose proof (peak_beside_int16_min raw peak (decode_le16_is_int16 _) Hoth Hpeak) as Hp.
  eexists _, (Np.true_divide raw peak). split; [|split; [|split]].
  - apply load_audio_ok, load_audio_try_returns. exists w, raw, peak.
    unfold Np.frombuffer_int16. rewrite He. repeat split; auto.
  - reflexivity.
  - reflexivity.
  - unfold Np.true_divide. apply Exists_fmap. eapply Exists_impl; [exact Hmin|].
    intros x ->. unfold compose. cbv beta. now apply int16_min_over_peak.
Qed.

Lemma load_audio_int16_min_falls_below_minus_one_witness :
  exists (s' : state) (d : list float),
    load_audio (State (world_with (Some (WavFile (mono16 8000 [-32768; 100])))) fresh)
    = (s', Returns tt) /\
    Exists (fun v => (v <? -1)%float = true) d.
Proof.
  destruct (load_audio_int16_min_falls_below_minus_one
              (State (world_with (Some (WavFile (mono16 8000 [-32768; 100])))) fresh)
              (mono16 8000 [-32768; 100]) eq_refl eq_refl)
    as (s' & d & Hload & _ & _ & Hex).
  - discriminate.
  - vm_compute. left. reflexivity.
  - vm_compute. right. left. split; discriminate.
  - exists s', d. split; [exact Hload | exact Hex].
Defined.

Lemma abs_int16_all_min (k : nat) :
  Np.abs_int16 (repeat (-32768) k) = repeat (-32768) k.
Proof. unfold Np.abs_int16. induction k; cbn; [reflexivity | now f_equal]. Qed.

Lemma max_int16_all_min (k : nat) :
  Np.max_int16 (repeat (-32768) (S k)) = Returns (-32768).
Proof.
  cbn [repeat Np.max_int16]. f_equal.
  induction k as [|k IH]; [reflexivity | exact IH].
Qed.

Lemma true_divide_all_min (k : nat) :
  Np.true_divide (repeat (-32768) k) (-32768) = repeat 1%float k.
Proof.
  unfold Np.true_divide. induction k as [|k IH]; [reflexivity|].
  cbn [repeat map]. rewrite IH. f_equal.
Qed.

(** X21: a buffer in which every sample is -32768 is normalised to
    +1.0 throughout: the peak found is -32768 itself, and the signs flip. *)
Theorem load_audio_all_int16_min_gives_plus_one (s : state) (w : Wave.wav) (k : nat) :
  fs (world s) !! wav_file_name (self s) = Some (WavFile w) ->
  Np.frombuffer_int16 (Wave.data w) = Returns (repeat (-32768) (S k)) ->
  audio_data (self (fst (load_audio s))) =
    Some (Np.Float64Array (repeat 1%float (S k))).
Proof.
  intros Hf Hraw.
  rewrite (load_audio_audio_data s w _ (-32768) Hf Hraw).
  - now rewrite true_divide_all_min.
  - rewrite abs_int16_all_min. apply max_int16_all_min.
Qed.

Lemma load_audio_all_int16_min_gives_plus_one_witness :
  audio_data (self (fst (load_audio
    (State (world_with (Some (WavFile (mono16 8000 [-32768; -32768; -32768])))) fresh))))
  = Some (Np.Float64Array [1%float; 1%float; 1%float]).
Proof.
  apply (load_audio_all_int16_min_gives_plus_one
           (State (world_with (Some (WavFile (mono16 8000 [-32768; -32768; -32768])))) fresh)
           (mono16 8000 [-32768; -32768; -32768]) 2 eq_refl).
  vm_compute. reflexivity.
Defined.
